(** * Open-Sora Gradio front end: the generation planner, the sampling loop
      and the segment stitcher of [gradio/app.py]

    The development embeds [run_inference], [run_image_inference] and
    [run_video_inference] of [gradio/app.py].  The neural collaborators
    (video autoencoder, scheduler, text utilities of the [opensora] package)
    are an interface, [collaborators], whose operations may raise; the
    shared, mutable objects of the module (the random generator seeded by
    [torch.manual_seed], the global [scheduler] object and the wall clock)
    form an explicit [state], and the observable effects of a call are
    collected in a trace of [event]s. *)

From stdpp Require Import base option list strings gmap.
From Stdlib Require Import Ascii ZArith QArith_base Lia.

#[local] Open Scope string_scope.
#[local] Open Scope list_scope.
#[local] Open Scope Z_scope.

(** ** Exceptions and results *)

(** The exceptions the module can end with.  [ValueError], [KeyError],
    [IndexError], [ZeroDivisionError] and [RuntimeError] are raised by the
    Python of [app.py] itself (or by the builtins and [torch] functions it
    calls on bad arguments); [CollaboratorError] stands for any exception a
    collaborator of the [opensora] package raises. *)
Inductive exn : Type :=
  | ValueError (msg : string)
  | KeyError (key : string)
  | IndexError
  | ZeroDivisionError
  | RuntimeError (msg : string)
  | CollaboratorError (who : string).

Inductive result (A : Type) : Type :=
  | Ok (a : A)
  | Raise (e : exn).
Arguments Ok {A} a.
Arguments Raise {A} e.

Definition result_bind {A B} (r : result A) (f : A -> result B) : result B :=
  match r with
  | Ok a => f a
  | Raise e => Raise e
  end.

#[export] Instance result_ret : MRet result := @Ok.
#[export] Instance result_mbind : MBind result :=
  fun A B f r => result_bind r f.

(** ** Python string helpers: [str.rstrip] and [int] *)

Module PyStr.

Definition is_empty (s : string) : bool :=
  match s with EmptyString => true | String _ _ => false end.

(** [s.rstrip(c)] for a one-character argument: every trailing [c] goes. *)
Fixpoint rstrip (c : ascii) (s : string) : string :=
  match s with
  | EmptyString => EmptyString
  | String a r =>
      let r' := rstrip c r in
      if Ascii.eqb a c && is_empty r' then EmptyString else String a r'
  end.

Fixpoint ends_with_slash (s : string) : bool :=
  match s with
  | EmptyString => false
  | String a EmptyString => Ascii.eqb a "/"%char
  | String _ r => ends_with_slash r
  end.

Fixpoint lstrip_ws (s : string) : string :=
  match s with
  | String a r => if Ascii.is_space a then lstrip_ws r else s
  | EmptyString => EmptyString
  end.

Fixpoint rstrip_ws (s : string) : string :=
  match s with
  | EmptyString => EmptyString
  | String a r =>
      let r' := rstrip_ws r in
      if Ascii.is_space a && is_empty r' then EmptyString else String a r'
  end.

Definition digit_of (c : ascii) : option Z :=
  let n := Z.of_nat (nat_of_ascii c) in
  if (48 <=? n) && (n <=? 57) then Some (n - 48) else None.

(** Decimal digits, with the single underscores Python allows between two
    digits.  [seen] says that the previous character was a digit. *)
Fixpoint digits (acc : Z) (seen : bool) (s : string) : option Z :=
  match s with
  | EmptyString => if seen then Some acc else None
  | String c r =>
      match digit_of c with
      | Some d => digits (10 * acc + d) true r
      | None =>
          if Ascii.eqb c "_"%char && seen then
            match r with
            | String c' _ =>
                match digit_of c' with
                | Some _ => digits acc false r
                | None => None
                end
            | EmptyString => None
            end
          else None
      end
  end.

(** [int(s)] on a [str]: surrounding white space, an optional sign, decimal
    digits.  Anything else is Python's [ValueError]. *)
Definition int (s : string) : result Z :=
  let body := rstrip_ws (lstrip_ws s) in
  let parsed :=
    match body with
    | String "-"%char r => Z.opp <$> digits 0 false r
    | String "+"%char r => digits 0 false r
    | _ => digits 0 false body
    end in
  match parsed with
  | Some n => Ok n
  | None =>
      Raise (ValueError
               ("invalid literal for int() with base 10: '" +:+ s +:+ "'"))
  end.

End PyStr.

(** ** Configuration and request *)

(** Values stored in the scheduler's keyword dictionary. *)
Inductive value : Type :=
  | VInt (n : Z)
  | VNum (x : Q)
  | VBool (b : bool)
  | VStr (s : string).

(** The fields of the loaded [config] (and of [args]) that [run_inference]
    reads. *)
Record config : Type := Config {
  cfg_condition_frame_length : Z;
  cfg_fps : Z;
  cfg_num_frames : Z;
  cfg_scheduler : gmap string value;
  args_output : string;
}.

(** [os.path.join(a, b)] for a relative [b]. *)
Definition path_join (a b : string) : string :=
  if PyStr.is_empty a then b
  else if PyStr.ends_with_slash a then a +:+ b
  else a +:+ "/" +:+ b.

(** [xs[k:]] on a sequence: a negative [k] counts from the end. *)
Definition slice_from {A} (k : Z) (xs : list A) : list A :=
  if decide (0 <= k) then drop (Z.to_nat k) xs
  else drop (length xs - Z.to_nat (- k))%nat xs.

Section Model.

(** Carriers of the tensors and handles that only the collaborators look
    into. *)
Context {Rng Image Latent Frame Refs Masks ModelArgs : Type}.

(** A decoded clip is its frames along the temporal axis (dimension 1 of
    the [C, T, H, W] tensor); what [vae.decode] returns is a batch of
    clips. *)
Abbreviation clip := (list Frame).
Abbreviation batch := (list (list Frame)).

Record request : Type := Request {
  req_mode : string;
  req_prompt_text : string;
  req_resolution : string;
  req_aspect_ratio : string;
  req_length : string;
  req_motion_strength : Z;
  req_aesthetic_score : Z;
  req_use_motion_strength : bool;
  req_use_aesthetic_score : bool;
  req_use_timestep_transform : bool;
  req_reference_image : option Image;
  req_seed : Z;
  req_sampling_steps : Z;
  req_cfg_scale : Q;
}.

(** A reference descriptor of the [refs] list: a path (the empty string
    when there is none) or the temporary PNG file [run_inference] writes
    the uploaded image to. *)
Inductive ref_desc : Type :=
  | RefPath (path : string)
  | RefTempPng (im : Image).

(** ** The collaborators

    Everything [app.py] imports from [opensora] and [torch] and calls in
    [run_inference].  Operations that touch the random generator take it
    and give it back; [scheduler_sample] also reads the keyword arguments
    the scheduler object was last initialised with. *)
Record collaborators : Type := Collaborators {
  IMG_FPS : Z;
  get_image_size : string -> string -> result (Z * Z);
  get_num_frames : string -> result Z;
  dframe_to_frame : Z -> Z;
  vae_get_latent_size : Z * Z * Z -> result (list Z);
  vae_out_channels : Z;
  extract_json_from_prompts :
    list string -> list ref_desc -> list (option string) ->
    result (list string * list ref_desc * list (option string));
  collect_references_batch :
    list ref_desc -> Z * Z -> Rng -> result (Refs * Rng);
  append_score_to_prompts :
    list string -> option Z -> option Z -> list string;
  prepare_multi_resolution_info :
    string -> Z -> Z * Z -> Z -> Z -> ModelArgs;
  extract_prompts_loop : list string -> Z -> result (list string);
  text_preprocessing : string -> string;
  append_generated :
    batch -> Refs -> list (option string) -> Z -> Z -> Rng ->
    result (Refs * list (option string) * Rng);
  torch_manual_seed : Z -> Rng;
  torch_randn : list Z -> Rng -> Latent * Rng;
  apply_mask_strategy :
    Latent -> Refs -> list (option string) -> Z -> Z ->
    result (Latent * Masks);
  scheduler_sample :
    gmap string value -> Latent -> list string -> ModelArgs -> Masks ->
    Rng -> result (Latent * Rng);
  vae_decode : Latent -> Z -> Rng -> result (batch * Rng);
  save_sample : clip -> string -> Z -> result string;
}.

(** ** Shared state and observable effects *)

(** The module-level objects a call reads and writes: the generator
    [torch.manual_seed] seeds, the global [scheduler] (as the keyword
    arguments of its latest [__init__]) and the text of the current
    timestamp. *)
Record state : Type := State {
  rng : Rng;
  scheduler : gmap string value;
  clock : string;
}.

Inductive event : Type :=
  | EvRandn (z : Latent)
  | EvSample (kwargs : gmap string value) (z : Latent)
  | EvDecode (samples : batch)
  | EvSave (video : clip) (save_path : string) (fps : Z)
  | EvEmptyCache
  | EvWarning (msg : string).

(** Computations: a result or an exception, the state they leave, the
    events they caused.  An exception keeps the effects that came before
    it. *)
Definition M (A : Type) : Type := state -> result A * state * list event.

Definition ret {A} (a : A) : M A := fun s => (Ok a, s, []).

Definition bind {A B} (m : M A) (f : A -> M B) : M B := fun s =>
  match m s with
  | (Ok a, s1, t1) =>
      match f a s1 with
      | (r, s2, t2) => (r, s2, t1 ++ t2)
      end
  | (Raise e, s1, t1) => (Raise e, s1, t1)
  end.

Definition lift {A} (r : result A) : M A := fun s => (r, s, []).

Definition emit (ev : event) : M unit := fun s => (Ok tt, s, [ev]).

(** A collaborator that uses the generator; when it raises, the generator
    is kept as it was before the call. *)
Definition with_rng {A} (f : Rng -> result (A * Rng)) : M A := fun s =>
  match f (rng s) with
  | Ok (a, g) => (Ok a, State g (scheduler s) (clock s), [])
  | Raise e => (Raise e, s, [])
  end.

#[global] Instance M_ret : MRet M := @ret.
#[global] Instance M_bind : MBind M := fun A B f m => bind m f.

(** [for x in xs: acc = body(x, acc)]. *)
Fixpoint for_each {A S} (xs : list A) (body : A -> S -> M S) (acc : S)
    : M S :=
  match xs with
  | [] => ret acc
  | x :: xs' => acc' ← body x acc; for_each xs' body acc'
  end.

Fixpoint result_for_each {A S} (xs : list A) (body : A -> S -> result S)
    (acc : S) : result S :=
  match xs with
  | [] => Ok acc
  | x :: xs' => acc' ← body x acc; result_for_each xs' body acc'
  end.

Fixpoint result_map {A B} (f : A -> result B) (xs : list A)
    : result (list B) :=
  match xs with
  | [] => Ok []
  | x :: xs' => y ← f x; ys ← result_map f xs'; Ok (y :: ys)
  end.

(** [range(a, b)]. *)
Definition range (a b : Z) : list Z := seqZ a (b - a).

Context (E : collaborators) (cfg : config).

(** *** Primitive effects *)

Definition manual_seed (seed : Z) : M unit := fun s =>
  (Ok tt, State (torch_manual_seed E seed) (scheduler s) (clock s), []).

Definition randn (shape : list Z) : M Latent := fun s =>
  match torch_randn E shape (rng s) with
  | (z, g) => (Ok z, State g (scheduler s) (clock s), [EvRandn z])
  end.

(** [scheduler.__init__] called with the keyword arguments [kwargs], on
    the shared object. *)
Definition scheduler_init (kwargs : gmap string value) : M unit := fun s =>
  (Ok tt, State (rng s) kwargs (clock s), []).

(** [scheduler.sample(...)]: runs under whatever the shared object holds
    at the time of the call. *)
Definition sample (z : Latent) (prompts : list string) (args : ModelArgs)
    (masks : Masks) : M Latent := fun s =>
  match scheduler_sample E (scheduler s) z prompts args masks (rng s) with
  | Ok (x, g) =>
      (Ok x, State g (scheduler s) (clock s), [EvSample (scheduler s) z])
  | Raise e => (Raise e, s, [EvSample (scheduler s) z])
  end.

Definition decode (x : Latent) (num_frames : Z) : M batch :=
  samples ← with_rng (vae_decode E x num_frames);
  emit (EvDecode samples);;
  ret samples.

Definition timestamp : M string := fun s => (Ok (clock s), s, []).

Definition save (video : clip) (save_path : string) (fps : Z) : M string :=
  emit (EvSave video save_path fps);;
  lift (save_sample E video save_path fps).

Definition empty_cache : M unit := emit EvEmptyCache.

Definition warning (msg : string) : M unit := emit (EvWarning msg).

(** ** 1. Preparation of the arguments: the planner *)

Record plan : Type := Plan {
  image_size : Z * Z;
  num_frames : Z;
  num_loop : Z;
  fps : Z;
}.

(** [int(a / b)] on two Python integers: the true quotient, truncated
    toward zero ([Z.quot]); a zero divisor raises.  (The float the
    division goes through is exact enough for that as long as both
    numbers stay below 2^53, which frame counts do.) *)
Definition int_truediv (a b : Z) : result Z :=
  if decide (b = 0) then Raise ZeroDivisionError else Ok (Z.quot a b).

(** Lines 208-228 of [run_inference]. *)
Definition compute_generation_parameters
    (mode resolution aspect_ratio length : string) : result plan :=
  image_size ← get_image_size E resolution aspect_ratio;
  let condition_frame_length := cfg_condition_frame_length cfg in
  if decide (mode = "Text2Image") then
    Ok (Plan image_size 1 1 (IMG_FPS E))
  else
    let fps := cfg_fps cfg in
    let num_frames := cfg_num_frames cfg in
    seconds ← PyStr.int (PyStr.rstrip "s" length);
    if decide (seconds <= 16) then
      num_frames ← get_num_frames E length;
      Ok (Plan image_size num_frames 1 fps)
    else
      let total_num_frames := fps * seconds in
      let condition_real_frame_length :=
        dframe_to_frame E condition_frame_length in
      num_subsequence_loop ←
        int_truediv (total_num_frames - num_frames)
                    (num_frames - condition_real_frame_length);
      Ok (Plan image_size num_frames (num_subsequence_loop + 1) fps).

(** Lines 236-244: the initial mask strategy. *)
Definition prepare_mask_strategy (r : request)
    : result (list (option string)) :=
  if decide (req_mode r = "Text2Image") then Ok [None]
  else if decide (req_mode r = "Text2Video") then
    match req_reference_image r with
    | Some _ => Ok [Some "0"]
    | None => Ok [None]
    end
  else Raise (ValueError ("Invalid mode: " +:+ req_mode r)).

(** Lines 247-260: the initial reference descriptors. *)
Definition prepare_refs (r : request) : result (list ref_desc) :=
  if decide (req_mode r = "Text2Image") then Ok [RefPath ""]
  else if decide (req_mode r = "Text2Video") then
    match req_reference_image r with
    | Some im => Ok [RefTempPng im]
    | None => Ok [RefPath ""]
    end
  else Raise (ValueError ("Invalid mode: " +:+ req_mode r)).

(** ** 2. The sampling loop *)

(** Lines 301-305: a copy of [config.scheduler] without its ['type'],
    with the three values of the request written over it. *)
Definition scheduler_kwargs (r : request) : result (gmap string value) :=
  let kwargs := cfg_scheduler cfg in
  match kwargs !! "type" with
  | None => Raise (KeyError "type")
  | Some _ =>
      let kwargs := delete "type" kwargs in
      let kwargs := <["num_sampling_steps" := VInt (req_sampling_steps r)]> kwargs in
      let kwargs := <["cfg_scale" := VNum (req_cfg_scale r)]> kwargs in
      let kwargs :=
        <["use_timestep_transform" := VBool (req_use_timestep_transform r)]>
          kwargs in
      Ok kwargs
  end.

(** What the shared scheduler holds when the module has been loaded:
    [build_module(config.scheduler, SCHEDULERS)]. *)
Definition scheduler_defaults : gmap string value :=
  delete "type" (cfg_scheduler cfg).

(** [xs[-1]]. *)
Definition py_last {A} (xs : list A) : result A :=
  match last xs with
  | Some x => Ok x
  | None => Raise IndexError
  end.

(** [xs[0]]. *)
Definition py_first {A} (xs : list A) : result A :=
  match xs with
  | x :: _ => Ok x
  | [] => Raise IndexError
  end.

(** The variables the loop body reads and rebinds. *)
Record loop_state : Type := LoopState {
  refs : Refs;
  mask_strategy : list (option string);
  video_clips : list batch;
}.

(** Lines 287-321: one iteration. *)
Definition loop_body (r : request) (pl : plan) (latent_size : list Z)
    (batch_prompts : list string) (model_args : ModelArgs)
    (loop_i : Z) (st : loop_state) : M loop_state :=
  let condition_frame_length := cfg_condition_frame_length cfg in
  let align := 5 in
  batch_prompts_loop ← lift (extract_prompts_loop E batch_prompts loop_i);
  let batch_prompts_cleaned := text_preprocessing E <$> batch_prompts_loop in
  '(refs, mask_strategy) ←
    (if decide (0 < loop_i) then
       previous ← lift (py_last (video_clips st));
       with_rng (append_generated E previous (refs st) (mask_strategy st)
                   loop_i condition_frame_length)
     else ret (refs st, mask_strategy st));
  z ← randn (Z.of_nat (length batch_prompts) :: vae_out_channels E
               :: latent_size);
  '(z, masks) ← lift (apply_mask_strategy E z refs mask_strategy loop_i align);
  kwargs ← lift (scheduler_kwargs r);
  scheduler_init kwargs;;
  samples ← sample z batch_prompts_cleaned model_args masks;
  samples ← decode samples (num_frames pl);
  ret (LoopState refs mask_strategy (video_clips st ++ [samples])).

(** ** 3. Stitching and saving *)

(** [torch.cat(clips, dim=1)]: refuses an empty list. *)
Definition torch_cat (clips : list clip) : result clip :=
  match clips with
  | [] => Raise (RuntimeError "torch.cat(): expected a non-empty list of Tensors")
  | _ => Ok (concat clips)
  end.

(** [clips[i] = clips[i][:, k:]]. *)
Definition trim_clip (i : Z) (clips : list clip) : result (list clip) :=
  match clips !! Z.to_nat i with
  | Some c =>
      Ok (<[Z.to_nat i := slice_from
              (dframe_to_frame E (cfg_condition_frame_length cfg)) c]> clips)
  | None => Raise IndexError
  end.

(** Lines 326-329. *)
Definition stitch (num_loop : Z) (video_clips : list batch) : result clip :=
  video_clips ← result_map py_first video_clips;
  video_clips ← result_for_each (range 1 num_loop) trim_clip video_clips;
  torch_cat video_clips.

(** ** [run_inference] *)

(** What section 1 of [run_inference] hands to the loop. *)
Record prepared : Type := Prepared {
  the_plan : plan;
  latent_size : list Z;
  batch_prompts : list string;
  model_args : ModelArgs;
  initial_refs : Refs;
  initial_mask_strategy : list (option string);
}.

(** Lines 201-279: seeding and the preparation of the arguments. *)
Definition prepare (r : request) : M prepared :=
  manual_seed (req_seed r);;
  pl ← lift (compute_generation_parameters (req_mode r) (req_resolution r)
               (req_aspect_ratio r) (req_length r));
  let input_size := (num_frames pl, (image_size pl).1, (image_size pl).2) in
  latent_size ← lift (vae_get_latent_size E input_size);
  let multi_resolution := "OpenSora" in
  mask_strategy ← lift (prepare_mask_strategy r);
  refs ← lift (prepare_refs r);
  let batch_prompts := [req_prompt_text r] in
  '(batch_prompts, refs, mask_strategy) ←
    lift (extract_json_from_prompts E batch_prompts refs mask_strategy);
  refs ← with_rng (collect_references_batch E refs (image_size pl));
  let use_motion_strength :=
    req_use_motion_strength r
    && negb (bool_decide (req_mode r = "Text2Image")) in
  let batch_prompts :=
    append_score_to_prompts E batch_prompts
      (if req_use_aesthetic_score r then Some (req_aesthetic_score r)
       else None)
      (if use_motion_strength then Some (req_motion_strength r)
       else None) in
  let model_args :=
    prepare_multi_resolution_info E multi_resolution
      (Z.of_nat (length batch_prompts)) (image_size pl) (num_frames pl)
      (fps pl) in
  ret (Prepared pl latent_size batch_prompts model_args refs mask_strategy).

(** Lines 284-321: [for loop_i in range(num_loop)]. *)
Definition generate (r : request) (p : prepared) : M (list batch) :=
  st ← for_each (range 0 (num_loop (the_plan p)))
         (loop_body r (the_plan p) (latent_size p) (batch_prompts p)
            (model_args p))
         (LoopState (initial_refs p) (initial_mask_strategy p) []);
  ret (video_clips st).

(** Lines 326-335: stitching, saving, clearing the device cache. *)
Definition save_output (pl : plan) (video_clips : list batch) : M string :=
  video ← lift (stitch (num_loop pl) video_clips);
  timestamp ← timestamp;
  let save_path := path_join (args_output cfg) ("output_" +:+ timestamp) in
  saved_path ← save video save_path (fps pl);
  empty_cache;;
  ret saved_path.

Definition run_inference (r : request) : M string :=
  p ← prepare r;
  video_clips ← generate r p;
  save_output (the_plan p) video_clips.

(** The two handlers behind the buttons take the request without its
    mode. *)
Definition with_mode (m : string) (r : request) : request :=
  Request m (req_prompt_text r) (req_resolution r) (req_aspect_ratio r)
    (req_length r) (req_motion_strength r) (req_aesthetic_score r)
    (req_use_motion_strength r) (req_use_aesthetic_score r)
    (req_use_timestep_transform r) (req_reference_image r) (req_seed r)
    (req_sampling_steps r) (req_cfg_scale r).

Definition run_image_inference (r : request) : M string :=
  run_inference (with_mode "Text2Image" r).

(** The test of lines 383-384. *)
Definition infeasible (resolution length : string) : bool :=
  (bool_decide (resolution = "480p") && bool_decide (length = "16s"))
  || (bool_decide (resolution = "720p")
      && bool_decide (length ∈ ["8s"; "16s"])).

(** A Python function that falls off its end returns [None]. *)
Definition run_video_inference (r : request) : M (option string) :=
  if infeasible (req_resolution r) (req_length r) then
    warning "Generation is interrupted as the combination of 480p and 16s will lead to CUDA out of memory";;
    ret None
  else
    saved_path ← run_inference (with_mode "Text2Video" r);
    ret (Some saved_path).

End Model.

Arguments request : clear implicits.
Arguments collaborators : clear implicits.
Arguments state : clear implicits.
Arguments event : clear implicits.

(** ** The choices the interface offers

    The radio buttons of [main] (lines 437-452). *)
Definition resolution_choices : list string :=
  ["144p"; "240p"; "360p"; "480p"; "720p"].

Definition aspect_ratio_choices : list string :=
  ["9:16"; "16:9"; "3:4"; "4:3"; "1:1"].

Definition length_choices : list string := ["2s"; "4s"; "8s"; "16s"].

(** ** [install_dependencies]

    The packages that import form the state; a shell command is run through
    [subprocess.run] without [check], so it never raises, and what it does
    to the packages is the collaborator [pip]. *)
Module Install.

Record shell_command : Type := ShellCommand {
  command : string;
  env : option (list (string * string));
}.

Definition quote : string := String (ascii_of_nat 34) EmptyString.

Section Install.

Context (executable : string).
Context (pip : shell_command -> gset string -> gset string).

(** An installation step: the packages that import, the commands run so
    far. *)
Definition Installer (A : Type) : Type :=
  gset string -> A * gset string * list shell_command.

(** [_is_package_available(name)]. *)
Definition is_package_available (name : string) : Installer bool := fun st =>
  (bool_decide (name ∈ st), st, []).

(** [subprocess.run(cmd, env=env, shell=True)]. *)
Definition subprocess_run (c : shell_command) : Installer unit := fun st =>
  (tt, pip c st, [c]).

Definition skip : Installer unit := fun st => (tt, st, []).

Definition seq {A} (m : Installer unit) (k : Installer A) : Installer A := fun st =>
  match m st with
  | (_, st1, t1) =>
      match k st1 with
      | (a, st2, t2) => (a, st2, t1 ++ t2)
      end
  end.

(** [if not _is_package_available(name): subprocess.run(...)]. *)
Definition unless_available (name : string) (c : shell_command) : Installer unit :=
  fun st =>
    match is_package_available name st with
    | (true, st1, t1) => (tt, st1, t1)
    | (false, st1, t1) =>
        match subprocess_run c st1 with
        | (_, st2, t2) => (tt, st2, t1 ++ t2)
        end
    end.

Definition flash_attn_command : shell_command :=
  ShellCommand
    (executable +:+ " -m pip install flash-attn --no-build-isolation")
    (Some [("FLASH_ATTENTION_SKIP_CUDA_BUILD", "TRUE")]).

Definition apex_command : shell_command :=
  ShellCommand
    (executable
     +:+ " -m pip install -v --disable-pip-version-check --no-cache-dir --no-build-isolation --config-settings "
     +:+ quote +:+ "--build-option=--cpp_ext" +:+ quote
     +:+ " --config-settings "
     +:+ quote +:+ "--build-option=--cuda_ext" +:+ quote
     +:+ " git+https://github.com/NVIDIA/apex.git")
    None.

Definition ninja_command : shell_command :=
  ShellCommand (executable +:+ " -m pip install ninja") None.

Definition xformers_command : shell_command :=
  ShellCommand
    (executable
     +:+ " -m pip install -v -U git+https://github.com/facebookresearch/xformers.git@main#egg=xformers")
    None.

(** Lines 38-77. *)
Definition install_dependencies (enable_optimization : bool) : Installer unit :=
  seq (unless_available "flash_attn" flash_attn_command)
      (if enable_optimization then
         seq (unless_available "apex" apex_command)
             (seq (unless_available "ninja" ninja_command)
                  (unless_available "xformers" xformers_command))
       else skip).

End Install.

End Install.


(** Projections of the outcome of a computation. *)
Definition outcome {A S T : Type} (x : A * S * T) : A := x.1.1.
Definition final {A S T : Type} (x : A * S * T) : S := x.1.2.
Definition trace {A S T : Type} (x : A * S * T) : T := x.2.

(** ** What a trace shows *)

Section Observers.

Context {Rng Latent Frame : Type}.

Abbreviation state := (state Rng).
Abbreviation event := (event Latent Frame).
Abbreviation M := (@M Rng Latent Frame).

Definition is_empty_cache (ev : event) : bool :=
  match ev with EvEmptyCache => true | _ => false end.

(** The noise tensors drawn by [torch.randn], in the order of the draws. *)
Definition drawn (t : list event) : list Latent :=
  omap (fun ev => match ev with EvRandn z => Some z | _ => None end) t.

(** The latents handed to [scheduler.sample], with the keyword arguments
    the scheduler held at that call. *)
Definition sampled (t : list event) : list (gmap string value * Latent) :=
  omap (fun ev => match ev with EvSample kw z => Some (kw, z) | _ => None end)
       t.

(** The batches [vae.decode] returned, in order. *)
Definition decoded (t : list event) : list (list (list Frame)) :=
  omap (fun ev => match ev with EvDecode b => Some b | _ => None end) t.

(** The videos handed to [save_sample]. *)
Definition saved (t : list event) : list (list Frame) :=
  omap (fun ev => match ev with EvSave v _ _ => Some v | _ => None end) t.

(** [sched_hoare P phi m Q]: started with a scheduler that satisfies [P],
    [m] causes only events that satisfy [phi] and, when it returns [a],
    leaves a scheduler that satisfies [Q a]. *)
Definition sched_hoare {A} (P : gmap string value -> Prop)
    (phi : event -> Prop) (m : M A) (Q : A -> gmap string value -> Prop)
    : Prop :=
  forall s : state,
    P (scheduler s) ->
    Forall phi (trace (m s))
    /\ forall a, outcome (m s) = Ok a -> Q a (scheduler (final (m s))).

(** How much two states are known to share. *)
Inductive agreement : Type :=
  | Unrelated
  | SameRng
  | SameRngScheduler.

Definition agree (a : agreement) (s1 s2 : state) : Prop :=
  match a with
  | Unrelated => True
  | SameRng => rng s1 = rng s2
  | SameRngScheduler => rng s1 = rng s2 /\ scheduler s1 = scheduler s2
  end.

(** [lockstep a a' m]: from two states that agree as [a] says, [m] has the
    same outcome and the same trace, and when it returns the two final
    states agree as [a'] says. *)
Definition lockstep {A} (a a' : agreement) (m : M A) : Prop :=
  forall s1 s2 : state,
    agree a s1 s2 ->
    outcome (m s1) = outcome (m s2)
    /\ trace (m s1) = trace (m s2)
    /\ forall x,
         outcome (m s1) = Ok x -> agree a' (final (m s1)) (final (m s2)).

(** The events of one loop iteration that returns: the noise drawn, the
    scheduler call on the conditioned latent, the batch decoded. *)
Definition iteration_events (kwargs : gmap string value)
    (x : Latent * Latent * list (list Frame)) : list event :=
  [EvRandn x.1.1; EvSample kwargs x.1.2; EvDecode x.2].


(** [keeps_clock m]: [m] leaves the clock as it found it. *)
Definition keeps_clock {A} (m : M A) : Prop :=
  forall s : state, clock (final (m s)) = clock s.


End Observers.

(** ** A small instance of the interface

    Integers stand for the generator, for latents and for frames.  The
    configuration is the one of the worked example: 24 frames per second,
    segments of 51 frames, a conditioning overlap of 5 latent frames, that
    is 17 real ones.  The length table is the one of Open-Sora 1.2, where
    the tag of a length names 51 frames per two seconds. *)
Module Demo.

Definition frames_of (x n : Z) : list Z :=
  (fun i => 1000 * x + i) <$> seqZ 0 n.

Definition num_frames_table (length : string) : result Z :=
  if decide (length = "2s") then Ok 51
  else if decide (length = "4s") then Ok 102
  else if decide (length = "8s") then Ok 204
  else if decide (length = "16s") then Ok 408
  else PyStr.int length.

Definition env : collaborators Z unit Z Z unit unit unit := {|
  IMG_FPS := 120;
  get_image_size := fun _ _ => Ok (144, 256);
  get_num_frames := num_frames_table;
  dframe_to_frame := fun n => n / 5 * 17;
  vae_get_latent_size := fun '(t, h, w) => Ok [t / 17 * 5; h / 8; w / 8];
  vae_out_channels := 4;
  extract_json_from_prompts := fun p r m => Ok (p, r, m);
  collect_references_batch := fun _ _ g => Ok (tt, g);
  append_score_to_prompts := fun p _ _ => p;
  prepare_multi_resolution_info := fun _ _ _ _ _ => tt;
  extract_prompts_loop := fun p _ => Ok p;
  text_preprocessing := fun p => p;
  append_generated := fun _ refs ms _ _ g => Ok (refs, ms, g);
  torch_manual_seed := fun seed => seed;
  torch_randn := fun _ g => (g, g + 1);
  apply_mask_strategy := fun z _ _ _ _ => Ok (z, tt);
  scheduler_sample := fun _ z _ _ _ g => Ok (z, g + 1);
  vae_decode := fun x n g =>
    if decide (0 <= n) then Ok ([frames_of x n], g)
    else Raise (CollaboratorError "vae.decode");
  save_sample := fun _ path _ => Ok (path +:+ ".mp4");
|}.

(** The same, with a scheduler whose [sample] raises. *)
Definition env_failing_scheduler : collaborators Z unit Z Z unit unit unit := {|
  IMG_FPS := IMG_FPS env;
  get_image_size := get_image_size env;
  get_num_frames := get_num_frames env;
  dframe_to_frame := dframe_to_frame env;
  vae_get_latent_size := vae_get_latent_size env;
  vae_out_channels := vae_out_channels env;
  extract_json_from_prompts := extract_json_from_prompts env;
  collect_references_batch := collect_references_batch env;
  append_score_to_prompts := append_score_to_prompts env;
  prepare_multi_resolution_info := prepare_multi_resolution_info env;
  extract_prompts_loop := extract_prompts_loop env;
  text_preprocessing := text_preprocessing env;
  append_generated := append_generated env;
  torch_manual_seed := torch_manual_seed env;
  torch_randn := torch_randn env;
  apply_mask_strategy := apply_mask_strategy env;
  scheduler_sample := fun _ _ _ _ _ _ =>
    Raise (CollaboratorError "scheduler.sample");
  vae_decode := vae_decode env;
  save_sample := save_sample env;
|}.

Definition scheduler_config : gmap string value :=
  <["type" := VStr "rflow"]>
    (<["use_timestep_transform" := VBool true]>
       (<["num_sampling_steps" := VInt 30]>
          (<["cfg_scale" := VNum (Qmake 7 1)]> ∅))).

Definition cfg : config := {|
  cfg_condition_frame_length := 5;
  cfg_fps := 24;
  cfg_num_frames := 51;
  cfg_scheduler := scheduler_config;
  args_output := "./outputs";
|}.

Definition req (mode resolution length : string) : request unit := {|
  req_mode := mode;
  req_prompt_text := "a river at dawn";
  req_resolution := resolution;
  req_aspect_ratio := "9:16";
  req_length := length;
  req_motion_strength := 100;
  req_aesthetic_score := 6;
  req_use_motion_strength := false;
  req_use_aesthetic_score := true;
  req_use_timestep_transform := false;
  req_reference_image := None;
  req_seed := 1024;
  req_sampling_steps := 50;
  req_cfg_scale := Qmake 9 2;
|}.

(** The state right after the module has been loaded. *)
Definition s0 : state Z := {|
  rng := 0;
  scheduler := scheduler_defaults cfg;
  clock := "1718000000.5";
|}.

(** Configurations off the beaten track: a segment as long as the overlap,
    an overlap longer than the segment, a frame rate so low that 17 seconds
    are shorter than one segment. *)
Definition cfg_equal_overlap : config := {|
  cfg_condition_frame_length := 5;
  cfg_fps := 24;
  cfg_num_frames := 17;
  cfg_scheduler := scheduler_config;
  args_output := "./outputs";
|}.

Definition cfg_long_overlap : config := {|
  cfg_condition_frame_length := 20;
  cfg_fps := 24;
  cfg_num_frames := 51;
  cfg_scheduler := scheduler_config;
  args_output := "./outputs";
|}.


Definition packages : list string := ["flash_attn"; "apex"; "ninja"; "xformers"].

(** A [pip] that installs the four packages whatever it is asked for. *)
Definition pip (c : Install.shell_command) (st : gset string) : gset string :=
  st ∪ list_to_set packages.


End Demo.

(** * Properties *)

Section Properties.

Context {Rng Image Latent Frame Refs Masks ModelArgs : Type}.
Context (E : collaborators Rng Image Latent Frame Refs Masks ModelArgs).
Context (cfg : config).

Abbreviation request := (request Image).
Abbreviation state := (state Rng).
Abbreviation event := (event Latent Frame).
Abbreviation M := (@M Rng Latent Frame).

(** ** Stepping through a computation *)

Ltac unfold_monad :=
  unfold outcome, final, trace, mbind, mret, M_bind, M_ret, bind, ret, lift,
    emit, timestamp, save, empty_cache, warning, manual_seed, scheduler_init
    in *;
  cbn in *.

Lemma bind_eq {A B} (m : M A) (f : A -> M B) (s : state) :
  (m ≫= f) s =
  match m s with
  | (Ok a, s1, t1) => (outcome (f a s1), final (f a s1), t1 ++ trace (f a s1))
  | (Raise e, s1, t1) => (Raise e, s1, t1)
  end.
Proof.
  unfold mbind, M_bind, bind, outcome, final, trace.
  destruct (m s) as [[[a|e] s1] t1]; [|done].
  by destruct (f a s1) as [[??]?].
Qed.

Lemma bind_ok_inv {A B} (m : M A) (f : A -> M B) (s s' : state) b t :
  (m ≫= f) s = (Ok b, s', t) ->
  exists a s1 t1 t2,
    m s = (Ok a, s1, t1) /\ f a s1 = (Ok b, s', t2) /\ t = t1 ++ t2.
Proof.
  rewrite bind_eq. destruct (m s) as [[[a|e] s1] t1]; [|done].
  destruct (f a s1) as [[r s2] t2] eqn:Hf. cbn. intros [= -> -> <-].
  by exists a, s1, t1, t2.
Qed.

Lemma lift_eq {A} (x : result A) (s : state) :
  (lift x : M A) s = (x, s, []).
Proof. done. Qed.

(** ** A small logic of the shared scheduler and the trace

    [sched_hoare P phi m Q]: started with a scheduler that satisfies [P],
    [m] causes only events that satisfy [phi] and, when it returns [a],
    leaves a scheduler that satisfies [Q a]. *)

Lemma sh_weaken {A} (P P' : gmap string value -> Prop) phi (m : M A)
    (Q Q' : A -> gmap string value -> Prop) :
  sched_hoare P' phi m Q' ->
  (forall k, P k -> P' k) -> (forall a k, Q' a k -> Q a k) ->
  sched_hoare P phi m Q.
Proof.
  intros H HP HQ s Hs. destruct (H s (HP _ Hs)) as [Ht Hq]. eauto.
Qed.

Lemma sh_pure {A} (F : Prop) P phi (m : M A) Q :
  (F -> sched_hoare P phi m Q) ->
  sched_hoare (fun k => F /\ P k) phi m Q.
Proof. intros H s [HF Hs]. by apply H. Qed.

Lemma sh_bind {A B} P phi (m : M A) (f : A -> M B) J Q :
  sched_hoare P phi m J ->
  (forall a, sched_hoare (J a) phi (f a) Q) ->
  sched_hoare P phi (m ≫= f) Q.
Proof.
  intros Hm Hf s Hs. destruct (Hm s Hs) as [Ht HJ].
  rewrite bind_eq. destruct (m s) as [[[a|e] s1] t1]; cbn in *; [|done].
  destruct (Hf a s1 (HJ a eq_refl)) as [Ht' HQ].
  split; [by apply Forall_app|done].
Qed.

Lemma sh_ret {A} P phi (a : A) :
  sched_hoare P phi (mret a : M A) (fun a' k => a' = a /\ P k).
Proof. intros s Hs. split; [constructor|]. by intros a' [= <-]. Qed.

Lemma sh_ret_post {A} (P : gmap string value -> Prop) phi (a : A)
    (Q : A -> gmap string value -> Prop) :
  (forall k, P k -> Q a k) -> sched_hoare P phi (mret a : M A) Q.
Proof.
  intros H. eapply sh_weaken; [apply (sh_ret P)|done|].
  intros ?? [-> ?]. by apply H.
Qed.

Lemma sh_lift {A} P phi (x : result A) :
  sched_hoare P phi (lift x : M A) (fun a k => x = Ok a /\ P k).
Proof.
  intros s Hs. split; [constructor|].
  unfold outcome, final, lift. cbn. by intros a ->.
Qed.

Lemma sh_with_rng {A} P phi (f : Rng -> result (A * Rng)) :
  sched_hoare P phi (with_rng f : M A) (fun _ k => P k).
Proof.
  intros s Hs. unfold with_rng, outcome, final, trace.
  destruct (f (rng s)) as [[a g]|e]; cbn; (split; [constructor|done]).
Qed.

Lemma sh_manual_seed P phi (seed : Z) :
  sched_hoare P phi (manual_seed E seed : M unit) (fun _ k => P k).
Proof. intros s Hs. split; [constructor|done]. Qed.

Lemma sh_randn P (phi : event -> Prop) (shape : list Z) :
  (forall z, phi (EvRandn z)) ->
  sched_hoare P phi (randn E shape : M Latent) (fun _ k => P k).
Proof.
  intros Hphi s Hs. unfold randn, outcome, final, trace.
  destruct (torch_randn E shape (rng s)) as [z g]; cbn.
  split; [by repeat constructor|done].
Qed.

Lemma sh_emit P (phi : event -> Prop) (ev : event) :
  phi ev -> sched_hoare P phi (emit ev : M unit) (fun _ k => P k).
Proof. intros Hphi s Hs. split; [by repeat constructor|done]. Qed.

Lemma sh_scheduler_init P phi (kwargs : gmap string value) :
  sched_hoare P phi (scheduler_init kwargs : M unit) (fun _ k => k = kwargs).
Proof. intros s Hs. split; [constructor|done]. Qed.

Lemma sh_sample P (phi : event -> Prop) z prompts args masks :
  (forall k, P k -> phi (EvSample k z)) ->
  sched_hoare P phi (sample E z prompts args masks : M Latent)
    (fun _ k => P k).
Proof.
  intros Hphi s Hs. unfold sample, outcome, final, trace.
  destruct (scheduler_sample _ _ _ _ _ _ _) as [[x g]|e]; cbn;
    (split; [repeat constructor; by apply Hphi|done]).
Qed.

Lemma sh_decode P (phi : event -> Prop) x n :
  (forall b, phi (EvDecode b)) ->
  sched_hoare P phi (decode E x n : M _) (fun _ k => P k).
Proof.
  intros Hphi. unfold decode.
  eapply sh_bind; [apply sh_with_rng|]. intros b. cbn.
  eapply sh_bind; [by apply sh_emit|]. intros ?. cbn.
  eapply sh_weaken; [apply sh_ret|done|]. by intros ?? [_ ?].
Qed.

Lemma sh_for_each {A S} phi (xs : list A) (body : A -> S -> M S)
    (J : S -> gmap string value -> Prop) :
  (forall x acc, sched_hoare (J acc) phi (body x acc) J) ->
  forall acc, sched_hoare (J acc) phi (for_each xs body acc) J.
Proof.
  intros Hbody. induction xs as [|x xs IH]; intros acc; cbn.
  - eapply sh_weaken; [apply sh_ret|done|]. by intros ?? [-> ?].
  - eapply sh_bind; [apply Hbody|]. apply IH.
Qed.


(** ** The planner *)



(** C8.  A Text2Image request is planned with one frame and one loop,
    whatever the resolution and the aspect ratio; a Text2Video request of
    at most 16 seconds is planned with one loop and the number of frames
    [get_num_frames] gives for its length tag. *)
Theorem single_loop_plans
    (resolution aspect_ratio length : string) (size : Z * Z) :
  get_image_size E resolution aspect_ratio = Ok size ->
  compute_generation_parameters E cfg "Text2Image" resolution aspect_ratio
    length
  = Ok {| image_size := size; num_frames := 1; num_loop := 1;
          fps := IMG_FPS E |}
  /\ forall seconds n : Z,
       PyStr.int (PyStr.rstrip "s" length) = Ok seconds ->
       seconds <= 16 ->
       get_num_frames E length = Ok n ->
       compute_generation_parameters E cfg "Text2Video" resolution
         aspect_ratio length
       = Ok {| image_size := size; num_frames := n; num_loop := 1;
               fps := cfg_fps cfg |}.
Proof.
  intros Hsize. unfold compute_generation_parameters. rewrite Hsize. cbn.
  split; [done|]. intros seconds n Hint Hshort Hn.
  rewrite Hint. cbn. destruct (decide (seconds <= 16)); [|lia].
  by rewrite Hn.
Qed.

(** ** The two handlers *)

Lemma infeasible_spec (resolution length : string) :
  infeasible resolution length = true <->
  (resolution = "720p" /\ (length = "8s" \/ length = "16s"))
  \/ (resolution = "480p" /\ length = "16s").
Proof.
  unfold infeasible.
  rewrite orb_true_iff, !andb_true_iff, !bool_decide_eq_true.
  rewrite !elem_of_cons, elem_of_nil. tauto.
Qed.

Lemma run_video_inference_refused (r : request) (s : state) :
  infeasible (req_resolution r) (req_length r) = true ->
  run_video_inference E cfg r s
  = (Ok None, s,
     [EvWarning "Generation is interrupted as the combination of 480p and 16s will lead to CUDA out of memory"]).
Proof. intros H. unfold run_video_inference. by rewrite H. Qed.

Lemma run_video_inference_accepted (r : request) (s : state) :
  infeasible (req_resolution r) (req_length r) = false ->
  run_video_inference E cfg r s
  = match run_inference E cfg (with_mode "Text2Video" r) s with
    | (Ok saved_path, s', t) => (Ok (Some saved_path), s', t)
    | (Raise e, s', t) => (Raise e, s', t)
    end.
Proof.
  intros H. unfold run_video_inference. rewrite H, bind_eq.
  destruct (run_inference _ _ _ s) as [[[p|e] s'] t]; [|done].
  cbn. by rewrite app_nil_r.
Qed.

(** C5.  A video request for 720p with 8s or 16s, or for 480p with 16s, is
    refused before anything runs: the handler returns with nothing but a
    warning in its trace (no scheduler call, no saved output) and leaves the
    generator and the shared scheduler as they were, so [run_inference] was
    not entered. *)
Theorem infeasible_request_refused (r : request) (s : state) :
  (req_resolution r = "720p" /\ (req_length r = "8s" \/ req_length r = "16s"))
  \/ (req_resolution r = "480p" /\ req_length r = "16s") ->
  outcome (run_video_inference E cfg r s) = Ok None
  /\ final (run_video_inference E cfg r s) = s
  /\ (exists msg, trace (run_video_inference E cfg r s) = [EvWarning msg])
  /\ sampled (trace (run_video_inference E cfg r s)) = []
  /\ saved (trace (run_video_inference E cfg r s)) = [].
Proof.
  intros H%infeasible_spec.
  rewrite (run_video_inference_refused r s H). cbn. eauto 6.
Qed.

(** C10.  [run_video_inference] returns [None], without raising, exactly for
    the refused combinations of resolution and length: there the outcome is
    the value [None] and the one sign of the refusal is a warning; for every
    other request the outcome is either the saved path or the exception of
    [run_inference], never [None]. *)
Theorem none_exactly_when_refused (r : request) (s : state) :
  (outcome (run_video_inference E cfg r s) = Ok None
   <-> (req_resolution r = "720p"
        /\ (req_length r = "8s" \/ req_length r = "16s"))
       \/ (req_resolution r = "480p" /\ req_length r = "16s"))
  /\ (outcome (run_video_inference E cfg r s) = Ok None ->
      exists msg, trace (run_video_inference E cfg r s) = [EvWarning msg]).
Proof.
  assert (outcome (run_video_inference E cfg r s) = Ok None ->
          infeasible (req_resolution r) (req_length r) = true) as Hrefused.
  { destruct (infeasible _ _) eqn:H; [done|].
    rewrite (run_video_inference_accepted r s H).
    by destruct (run_inference _ _ _ s) as [[[p|e] s'] t]. }
  split.
  - rewrite <- infeasible_spec. split; [done|].
    intros H. by rewrite (run_video_inference_refused r s H).
  - intros H%Hrefused. rewrite (run_video_inference_refused r s H). cbn. eauto.
Qed.

(** ** Unknown modes *)




(** ** The scheduler and the trace through [run_inference] *)

Section Phases.

Context (phi : event -> Prop) (r : request).
Hypothesis phi_randn : forall z, phi (EvRandn z).
Hypothesis phi_decode : forall b, phi (EvDecode b).
Hypothesis phi_sample :
  forall kwargs z, scheduler_kwargs cfg r = Ok kwargs -> phi (EvSample kwargs z).

Lemma sh_prepare (P : gmap string value -> Prop) :
  sched_hoare P phi (prepare E cfg r) (fun _ k => P k).
Proof.
  unfold prepare.
  eapply sh_bind; [apply sh_manual_seed|]. intros ?. cbn.
  eapply sh_bind; [apply sh_lift|]. intros pl. apply sh_pure. intros _.
  eapply sh_bind; [apply sh_lift|]. intros ls. apply sh_pure. intros _.
  eapply sh_bind; [apply sh_lift|]. intros ms. apply sh_pure. intros _.
  eapply sh_bind; [apply sh_lift|]. intros rs. apply sh_pure. intros _.
  eapply sh_bind; [apply sh_lift|]. intros [[bp rs'] ms'].
  apply sh_pure. intros _.
  eapply sh_bind; [apply sh_with_rng|]. intros refs. cbn.
  eapply sh_weaken; [apply sh_ret|done|]. by intros ?? [_ ?].
Qed.

Lemma sh_loop_body pl ls bp ma (loop_i : Z) st :
  sched_hoare (fun _ => True) phi (loop_body E cfg r pl ls bp ma loop_i st)
    (fun st' k => scheduler_kwargs cfg r = Ok k /\ video_clips st' <> []).
Proof.
  unfold loop_body.
  eapply sh_bind; [apply sh_lift|]. intros bpl. apply sh_pure. intros _.
  eapply sh_bind with (J := fun _ _ => True).
  { destruct (decide (0 < loop_i)).
    - eapply sh_bind; [apply sh_lift|]. intros prev. apply sh_pure. intros _.
      apply sh_with_rng.
    - by apply sh_ret_post. }
  intros [refs ms].
  eapply sh_bind; [by apply sh_randn|]. intros z. cbn.
  eapply sh_bind; [apply sh_lift|]. intros [z' masks].
  apply sh_pure. intros _.
  eapply sh_bind; [apply sh_lift|]. intros kwargs.
  apply sh_pure. intros Hkw.
  eapply sh_bind; [apply sh_scheduler_init|]. intros ?. cbn.
  eapply sh_bind; [apply sh_sample|].
  { intros k ->. by apply phi_sample. }
  intros x. cbn.
  eapply sh_bind; [by apply sh_decode|]. intros b. cbn.
  apply sh_ret_post. intros k ->. split; [done|].
  cbn. by destruct (video_clips st).
Qed.

Lemma sh_generate p :
  sched_hoare (fun _ => True) phi (generate E cfg r p)
    (fun clips k => clips = [] \/ scheduler_kwargs cfg r = Ok k).
Proof.
  unfold generate.
  eapply sh_bind.
  - eapply sh_weaken;
      [apply (sh_for_each phi _ _
                (fun st k =>
                   video_clips st = [] \/ scheduler_kwargs cfg r = Ok k))
      |by intros; left|by intros ?? H; exact H].
    intros loop_i st.
    eapply sh_weaken; [apply sh_loop_body|done|]. intros ?? [? _]. by right.
  - intros st. cbn. by apply sh_ret_post.
Qed.

End Phases.

(** *** Stitching needs at least one clip *)

Lemma trim_clip_length (i : Z) (clips clips' : list (list Frame)) :
  trim_clip E cfg i clips = Ok clips' -> length clips' = length clips.
Proof.
  unfold trim_clip. destruct (_ !! _) as [c|]; [|done].
  intros [= <-]. by rewrite length_insert.
Qed.

Lemma trim_loop_length (xs : list Z) (clips clips' : list (list Frame)) :
  result_for_each xs (trim_clip E cfg) clips = Ok clips' ->
  length clips' = length clips.
Proof.
  revert clips. induction xs as [|i xs IH]; intros clips; cbn.
  - by intros [= ->].
  - destruct (trim_clip E cfg i clips) as [c1|e] eqn:H1; [|done]. cbn.
    intros H. rewrite (IH _ H). by eapply trim_clip_length.
Qed.

Lemma stitch_ok_nonempty (n : Z) (bs : list (list (list Frame))) video :
  stitch E cfg n bs = Ok video -> bs <> [].
Proof.
  intros H ->. unfold stitch in H. cbn in H.
  destruct (result_for_each _ _ _) as [clips|e] eqn:Hloop; [|done].
  apply trim_loop_length in Hloop. by destruct clips.
Qed.

(** What the last phase does, case by case. *)
Lemma save_output_eq (pl : plan) (clips : list (list (list Frame))) (s : state) :
  save_output E cfg pl clips s
  = match stitch E cfg (num_loop pl) clips with
    | Raise e => (Raise e, s, [])
    | Ok video =>
        let save_path :=
          path_join (args_output cfg) ("output_" +:+ clock s) in
        match save_sample E video save_path (fps pl) with
        | Raise e => (Raise e, s, [EvSave video save_path (fps pl)])
        | Ok saved_path =>
            (Ok saved_path, s,
             [EvSave video save_path (fps pl); EvEmptyCache])
        end
    end.
Proof.
  unfold save_output. rewrite bind_eq, lift_eq.
  destruct (stitch _ _ _ _) as [video|e]; [|done].
  unfold_monad.
  by destruct (save_sample _ _ _ _) as [saved_path|e].
Qed.


Lemma sh_save_output (phi : event -> Prop) (P : gmap string value -> Prop)
    (pl : plan) (clips : list (list (list Frame))) :
  (forall video path fps, phi (EvSave video path fps)) ->
  phi EvEmptyCache ->
  sched_hoare P phi (save_output E cfg pl clips)
    (fun _ k => P k /\ clips <> []).
Proof.
  intros Hsave Hclear s Hs. rewrite save_output_eq.
  destruct (stitch _ _ _ _) as [video|e] eqn:Hstitch; [|by split].
  apply stitch_ok_nonempty in Hstitch. cbn.
  destruct (save_sample _ _ _ _) as [saved_path|e];
    (split; [by repeat constructor|done]).
Qed.

(** [run_inference], phase by phase. *)
Lemma run_inference_eq (r : request) (s : state) :
  run_inference E cfg r s
  = match prepare E cfg r s with
    | (Raise e, s1, t1) => (Raise e, s1, t1)
    | (Ok p, s1, t1) =>
        match generate E cfg r p s1 with
        | (Raise e, s2, t2) => (Raise e, s2, t1 ++ t2)
        | (Ok clips, s2, t2) =>
            match save_output E cfg (the_plan p) clips s2 with
            | (x, s3, t3) => (x, s3, t1 ++ t2 ++ t3)
            end
        end
    end.
Proof.
  unfold run_inference. rewrite bind_eq.
  destruct (prepare _ _ _ s) as [[[p|e] s1] t1]; [|done].
  rewrite bind_eq.
  destruct (generate _ _ _ p s1) as [[[clips|e] s2] t2]; [|done].
  by destruct (save_output _ _ _ clips s2) as [[x s3] t3].
Qed.

Lemma sh_run_inference (phi : event -> Prop) (r : request) :
  (forall z, phi (EvRandn z)) ->
  (forall b, phi (EvDecode b)) ->
  (forall kwargs z,
     scheduler_kwargs cfg r = Ok kwargs -> phi (EvSample kwargs z)) ->
  (forall video path fps, phi (EvSave video path fps)) ->
  phi EvEmptyCache ->
  sched_hoare (fun _ => True) phi (run_inference E cfg r)
    (fun _ k => scheduler_kwargs cfg r = Ok k).
Proof.
  intros H1 H2 H3 H4 H5. unfold run_inference.
  eapply sh_bind; [by apply sh_prepare|]. intros p. cbn.
  eapply sh_bind; [by apply sh_generate|]. intros clips. cbn.
  eapply sh_weaken;
    [by apply (sh_save_output phi
                 (fun k => clips = [] \/ scheduler_kwargs cfg r = Ok k))
    |done|].
  cbn. intros _ k [[->|?] ?]; done.
Qed.

Lemma sampled_Forall (phi : gmap string value -> Prop) (t : list event) :
  Forall (fun ev => forall kwargs z, ev = EvSample kwargs z -> phi kwargs) t ->
  Forall (fun x => phi x.1) (sampled t).
Proof.
  induction 1 as [|ev t Hev _ IH]; [constructor|].
  unfold sampled in *. destruct ev; cbn; try done.
  constructor; [|done]. by eapply Hev.
Qed.

(** C3 (as the code has it).  The values of the request are written into
    the one shared scheduler: every [scheduler.sample] call of
    [run_inference] runs under [config.scheduler] without its type and with
    the request's three values, whatever the scheduler held before, and when
    [run_inference] returns the shared scheduler still holds them; it is not
    put back to the configured defaults. *)
Theorem scheduler_overrides_persist (r : request) (s : state) :
  Forall (fun x => scheduler_kwargs cfg r = Ok x.1)
         (sampled (trace (run_inference E cfg r s)))
  /\ forall saved_path,
       outcome (run_inference E cfg r s) = Ok saved_path ->
       scheduler_kwargs cfg r = Ok (scheduler (final (run_inference E cfg r s))).
Proof.
  destruct (sh_run_inference
              (fun ev => forall kwargs z,
                 ev = EvSample kwargs z -> scheduler_kwargs cfg r = Ok kwargs)
              r) with (s := s) as [Ht Hs]; try done.
  - by intros kwargs z H ?? [= <- _].
  - split; [|apply Hs].
    by apply (sampled_Forall (fun k => scheduler_kwargs cfg r = Ok k)).
Qed.

(** C4 (as the code has it).  [torch.cuda.empty_cache] is the last effect of
    a call that returns and happens once; a call that ends with an
    exception, from the scheduler, the autoencoder or anything else, hands
    nothing back and has not cleared the cache. *)
Theorem cache_cleared_on_return_only (r : request) (s : state) :
  match outcome (run_inference E cfg r s) with
  | Ok _ =>
      exists t,
        trace (run_inference E cfg r s) = t ++ [EvEmptyCache]
        /\ Forall (fun ev => is_empty_cache ev = false) t
  | Raise _ =>
      Forall (fun ev => is_empty_cache ev = false)
             (trace (run_inference E cfg r s))
  end.
Proof.
  set (phi := fun ev : event => is_empty_cache ev = false).
  rewrite run_inference_eq.
  destruct (sh_prepare phi r (fun _ => True) s I) as [Hp _].
  destruct (prepare _ _ _ s) as [[[p|e] s1] t1]; [|done].
  assert (sched_hoare (fun _ => True) phi (generate E cfg r p)
            (fun clips k => clips = [] \/ scheduler_kwargs cfg r = Ok k)) as Hg
    by (by apply sh_generate).
  destruct (Hg s1 I) as [Hg' _]. clear Hg.
  destruct (generate _ _ _ p s1) as [[[clips|e] s2] t2];
    [|by apply Forall_app].
  rewrite save_output_eq.
  destruct (stitch _ _ _ _) as [video|e]; [|by rewrite app_nil_r; apply Forall_app].
  cbn. destruct (save_sample _ _ _ _) as [saved_path|e]; cbn.
  - eexists (t1 ++ t2 ++ [EvSave _ _ _]). split.
    + by rewrite <- !app_assoc.
    + rewrite !Forall_app. by repeat constructor.
  - rewrite !Forall_app. by repeat constructor.
Qed.



(** ** Two runs side by side *)

Lemma ls_bind {A B} a b c (m : M A) (f : A -> M B) :
  lockstep a b m -> (forall x, lockstep b c (f x)) -> lockstep a c (m ≫= f).
Proof.
  intros Hm Hf s1 s2 Hs. destruct (Hm s1 s2 Hs) as (Ho & Ht & Hb).
  rewrite !bind_eq.
  destruct (m s1) as [[[x1|e1] s1'] t1], (m s2) as [[[x2|e2] s2'] t2];
    cbn in *; simplify_eq; [|done].
  destruct (Hf x2 s1' s2' (Hb _ eq_refl)) as (Ho' & Ht' & Hc).
  unfold outcome, final, trace in *. cbn. rewrite Ho', Ht'.
  repeat split; [done..|]. intros x Hx. apply (Hc x). by rewrite Ho'.
Qed.

Lemma ls_forget_scheduler {A} a (m : M A) :
  lockstep a SameRngScheduler m -> lockstep a SameRng m.
Proof.
  intros Hm s1 s2 Hs. destruct (Hm s1 s2 Hs) as (Ho & Ht & Hb).
  repeat split; [done..|]. intros x Hx. by destruct (Hb x Hx).
Qed.

Lemma ls_ret {A} a (x : A) : lockstep a a (mret x : M A).
Proof. by intros s1 s2 Hs. Qed.

Lemma ls_lift {A} a (x : result A) : lockstep a a (lift x : M A).
Proof. by intros s1 s2 Hs. Qed.

Lemma ls_manual_seed (seed : Z) :
  lockstep Unrelated SameRng (manual_seed E seed : M unit).
Proof. by intros s1 s2 _. Qed.

Lemma ls_with_rng {A} a (f : Rng -> result (A * Rng)) :
  a <> Unrelated -> lockstep a a (with_rng f : M A).
Proof.
  intros Ha s1 s2 Hs. unfold with_rng, outcome, final, trace.
  assert (rng s1 = rng s2) as -> by (destruct a; [done|done|by destruct Hs]).
  destruct (f (rng s2)) as [[x g]|e]; cbn; [|done].
  repeat split; [done..|]. intros _ _.
  destruct a; [done|done|]. by destruct Hs.
Qed.

Lemma ls_randn a (shape : list Z) :
  a <> Unrelated -> lockstep a a (randn E shape : M Latent).
Proof.
  intros Ha s1 s2 Hs. unfold randn, outcome, final, trace.
  assert (rng s1 = rng s2) as -> by (destruct a; [done|done|by destruct Hs]).
  destruct (torch_randn E shape (rng s2)) as [z g]; cbn.
  repeat split; [done..|]. intros _ _.
  destruct a; [done|done|]. by destruct Hs.
Qed.

Lemma ls_emit a (ev : event) : lockstep a a (emit ev : M unit).
Proof. by intros s1 s2 Hs. Qed.

Lemma ls_scheduler_init (kwargs : gmap string value) :
  lockstep SameRng SameRngScheduler (scheduler_init kwargs : M unit).
Proof. by intros s1 s2 Hs. Qed.

Lemma ls_sample z prompts args masks :
  lockstep SameRngScheduler SameRngScheduler
    (sample E z prompts args masks : M Latent).
Proof.
  intros s1 s2 [Hg Hk]. unfold sample, outcome, final, trace.
  rewrite Hg, Hk.
  by destruct (scheduler_sample _ _ _ _ _ _ _) as [[x g]|e].
Qed.

Lemma ls_decode a x n :
  a <> Unrelated -> lockstep a a (decode E x n : M _).
Proof.
  intros Ha. unfold decode.
  eapply ls_bind; [by apply ls_with_rng|]. intros b.
  eapply ls_bind; [apply ls_emit|]. intros ?. apply ls_ret.
Qed.

Lemma ls_for_each {A S} a (xs : list A) (body : A -> S -> M S) :
  (forall x acc, lockstep a a (body x acc)) ->
  forall acc, lockstep a a (for_each xs body acc).
Proof.
  intros Hbody. induction xs as [|x xs IH]; intros acc; cbn.
  - apply ls_ret.
  - eapply ls_bind; [apply Hbody|]. apply IH.
Qed.

Lemma ls_prepare (r : request) : lockstep Unrelated SameRng (prepare E cfg r).
Proof.
  unfold prepare.
  eapply ls_bind; [apply ls_manual_seed|]. intros ?.
  eapply ls_bind; [apply ls_lift|]. intros pl.
  eapply ls_bind; [apply ls_lift|]. intros ls.
  eapply ls_bind; [apply ls_lift|]. intros ms.
  eapply ls_bind; [apply ls_lift|]. intros rs.
  eapply ls_bind; [apply ls_lift|]. intros [[bp rs'] ms'].
  eapply ls_bind; [by apply ls_with_rng|]. intros refs.
  apply ls_ret.
Qed.

Lemma ls_loop_body (r : request) pl ls bp ma (loop_i : Z) st :
  lockstep SameRng SameRng (loop_body E cfg r pl ls bp ma loop_i st).
Proof.
  unfold loop_body.
  eapply ls_bind; [apply ls_lift|]. intros bpl.
  eapply ls_bind with (b := SameRng).
  { destruct (decide (0 < loop_i)).
    - eapply ls_bind; [apply ls_lift|]. intros prev. by apply ls_with_rng.
    - apply ls_ret. }
  intros [refs ms].
  eapply ls_bind; [by apply ls_randn|]. intros z.
  eapply ls_bind; [apply ls_lift|]. intros [z' masks].
  eapply ls_bind; [apply ls_lift|]. intros kwargs.
  eapply ls_bind; [apply ls_scheduler_init|]. intros ?.
  apply ls_forget_scheduler.
  eapply ls_bind; [apply ls_sample|]. intros samples.
  eapply ls_bind; [by apply ls_decode|]. intros b.
  apply ls_ret.
Qed.

Lemma ls_generate (r : request) p :
  lockstep SameRng SameRng (generate E cfg r p).
Proof.
  unfold generate.
  eapply ls_bind; [apply ls_for_each; intros; apply ls_loop_body|].
  intros st. apply ls_ret.
Qed.

Lemma save_output_draws_nothing (pl : plan) clips (s : state) :
  drawn (trace (save_output E cfg pl clips s)) = []
  /\ sampled (trace (save_output E cfg pl clips s)) = [].
Proof.
  rewrite save_output_eq. destruct (stitch _ _ _ _) as [video|e]; [|done].
  cbn. by destruct (save_sample _ _ _ _).
Qed.

(** C7.  Two executions of [run_inference] on the same request (the seed is
    part of it), from whatever states of the generator, of the shared
    scheduler and of the clock, draw the same noise tensor at every loop
    index and hand the same latents to the scheduler. *)
Theorem noise_is_reproducible (r : request) (s1 s2 : state) :
  drawn (trace (run_inference E cfg r s1))
  = drawn (trace (run_inference E cfg r s2))
  /\ sampled (trace (run_inference E cfg r s1))
     = sampled (trace (run_inference E cfg r s2)).
Proof.
  rewrite !run_inference_eq.
  destruct (ls_prepare r s1 s2 I) as (Ho & Ht & Hs).
  destruct (prepare _ _ _ s1) as [[[p1|e1] s1'] t1],
           (prepare _ _ _ s2) as [[[p2|e2] s2'] t2];
    cbn in *; simplify_eq; [|done].
  destruct (ls_generate r p2 s1' s2' (Hs _ eq_refl)) as (Ho' & Ht' & _).
  destruct (generate _ _ _ p2 s1') as [[[c1|e1] s1''] t1'],
           (generate _ _ _ p2 s2') as [[[c2|e2] s2''] t2'];
    cbn in *; simplify_eq; [|done].
  destruct (save_output_draws_nothing (the_plan p2) c2 s1'') as [Hd1 Hx1].
  destruct (save_output_draws_nothing (the_plan p2) c2 s2'') as [Hd2 Hx2].
  destruct (save_output _ _ _ c2 s1'') as [[x1 s1'''] t1''],
           (save_output _ _ _ c2 s2'') as [[x2 s2'''] t2''].
  cbn in *. unfold drawn, sampled in *.
  by rewrite !omap_app, Hd1, Hd2, Hx1, Hx2.
Qed.


(** ** The stitcher *)

Lemma slice_from_nonneg {A} (k : Z) (xs : list A) :
  0 <= k -> slice_from k xs = drop (Z.to_nat k) xs.
Proof. intros Hk. unfold slice_from. by rewrite decide_True. Qed.

Lemma trim_clip_middle (done todo : list (list Frame)) (c : list Frame) :
  trim_clip E cfg (Z.of_nat (length done)) (done ++ c :: todo)
  = Ok (done
        ++ slice_from (dframe_to_frame E (cfg_condition_frame_length cfg)) c
        :: todo).
Proof.
  unfold trim_clip. rewrite Nat2Z.id.
  rewrite list_lookup_middle by done.
  by rewrite insert_app_r_alt, Nat.sub_diag by done.
Qed.

(** The trimming loop, started at index [length done]: the clips before it
    stay, each clip from it on loses its leading frames. *)
Lemma trim_loop_spec (todo done : list (list Frame)) :
  result_for_each
    (seqZ (Z.of_nat (length done)) (Z.of_nat (length todo)))
    (trim_clip E cfg) (done ++ todo)
  = Ok (done ++ (slice_from (dframe_to_frame E (cfg_condition_frame_length cfg))
                   <$> todo)).
Proof.
  revert done. induction todo as [|c todo IH]; intros done.
  - by rewrite seqZ_nil by done.
  - rewrite seqZ_cons by (cbn; lia). cbn [result_for_each].
    rewrite trim_clip_middle. cbn.
    set (c' := slice_from _ c).
    replace (Z.succ (Z.of_nat (length done)))
      with (Z.of_nat (length (done ++ [c']))) by (rewrite length_app; cbn; lia).
    replace (Z.pred (Z.of_nat (S (length todo))))
      with (Z.of_nat (length todo)) by lia.
    replace (done ++ c' :: todo) with ((done ++ [c']) ++ todo)
      by (by rewrite <- app_assoc).
    rewrite IH. by rewrite <- app_assoc.
Qed.

Lemma result_map_length {A B} (f : A -> result B) (xs : list A) (ys : list B) :
  result_map f xs = Ok ys -> length ys = length xs.
Proof.
  revert ys. induction xs as [|x xs IH]; intros ys; cbn.
  - by intros [= <-].
  - destruct (f x) as [y|e]; [|done]. cbn.
    destruct (result_map f xs) as [ys'|e]; [|done]. cbn.
    intros [= <-]. cbn. by rewrite (IH ys').
Qed.

(** What [stitch] computes when the list has one batch per loop. *)
Lemma stitch_spec (bs : list (list (list Frame))) (video : list Frame) :
  stitch E cfg (Z.of_nat (length bs)) bs = Ok video ->
  exists first_clip later_clips,
    result_map py_first bs = Ok (first_clip :: later_clips)
    /\ video
       = first_clip
         ++ concat (slice_from
                      (dframe_to_frame E (cfg_condition_frame_length cfg))
                    <$> later_clips).
Proof.
  intros H. pose proof (stitch_ok_nonempty _ _ _ H) as Hne.
  unfold stitch in H.
  destruct (result_map py_first bs) as [clips|e] eqn:Hfirst; [|done].
  pose proof (result_map_length _ _ _ Hfirst) as Hlen.
  destruct clips as [|c0 rest]; [by destruct bs|].
  exists c0, rest. split; [done|]. cbn in H.
  unfold range in H. rewrite <- Hlen in H. cbn [length] in H.
  replace (Z.of_nat (S (length rest)) - 1) with (Z.of_nat (length rest))
    in H by lia.
  change 1 with (Z.of_nat (length [c0])) in H.
  change (c0 :: rest) with ([c0] ++ rest) in H.
  rewrite trim_loop_spec in H. cbn in H. by injection H as <-.
Qed.


(** ** Runs that return *)

Lemma ret_ok_inv {A} (a a' : A) (s s' : state) t :
  (mret a : M A) s = (Ok a', s', t) -> a' = a /\ s' = s /\ t = [].
Proof. by intros [= -> -> <-]. Qed.

Lemma lift_ok_inv {A} (x : result A) a (s s' : state) t :
  (lift x : M A) s = (Ok a, s', t) -> x = Ok a /\ s' = s /\ t = [].
Proof. by intros [= -> -> <-]. Qed.

Lemma with_rng_ok_inv {A} (f : Rng -> result (A * Rng)) a (s s' : state) t :
  (with_rng f : M A) s = (Ok a, s', t) ->
  t = [] /\ exists g, f (rng s) = Ok (a, g).
Proof.
  unfold with_rng. destruct (f (rng s)) as [[a' g]|e]; [|done].
  intros [= -> _ <-]. eauto.
Qed.

Lemma randn_ok_inv shape z (s s' : state) t :
  randn E shape s = (Ok z, s', t) -> t = [EvRandn z].
Proof.
  unfold randn. destruct (torch_randn _ _ _) as [z' g]. by intros [= -> _ <-].
Qed.

Lemma sample_ok_inv z prompts args masks x (s s' : state) t :
  sample E z prompts args masks s = (Ok x, s', t) ->
  t = [EvSample (scheduler s) z].
Proof.
  unfold sample. destruct (scheduler_sample _ _ _ _ _ _ _) as [[x' g]|e];
    [|done].
  by intros [= _ _ <-].
Qed.

Lemma decode_ok_inv x n b (s s' : state) t :
  decode E x n s = (Ok b, s', t) ->
  t = [EvDecode b] /\ exists g g', vae_decode E x n g = Ok (b, g').
Proof.
  unfold decode. intros H.
  apply bind_ok_inv in H as (b' & s1 & t1 & t2 & H1 & H & ->).
  apply with_rng_ok_inv in H1 as [-> [g Hg]].
  unfold_monad. injection H as <- _ <-. eauto.
Qed.

(** An iteration that returns has decoded one batch and appended it. *)
Lemma loop_body_ok (r : request) pl ls bp ma (loop_i : Z) st st'
    (s s' : state) t :
  loop_body E cfg r pl ls bp ma loop_i st s = (Ok st', s', t) ->
  exists b,
    video_clips st' = video_clips st ++ [b]
    /\ decoded t = [b]
    /\ saved t = []
    /\ exists x g g', vae_decode E x (num_frames pl) g = Ok (b, g').
Proof.
  unfold loop_body. intros H.
  apply bind_ok_inv in H as (bpl & s1 & t1 & ? & H1 & H & ->).
  apply lift_ok_inv in H1 as (_ & -> & ->).
  apply bind_ok_inv in H as ([refs ms] & s2 & t2 & ? & H2 & H & ->).
  assert (t2 = []) as ->.
  { destruct (decide (0 < loop_i)).
    - apply bind_ok_inv in H2 as (prev & s1 & t1 & ? & H1 & H2 & ->).
      apply lift_ok_inv in H1 as (_ & -> & ->).
      by apply with_rng_ok_inv in H2 as [-> _].
    - by apply ret_ok_inv in H2 as (_ & _ & ->). }
  apply bind_ok_inv in H as (z & s3 & t3 & ? & H3 & H & ->).
  apply randn_ok_inv in H3 as ->.
  apply bind_ok_inv in H as ([z' masks] & s4 & t4 & ? & H4 & H & ->).
  apply lift_ok_inv in H4 as (_ & -> & ->).
  apply bind_ok_inv in H as (kwargs & s5 & t5 & ? & H5 & H & ->).
  apply lift_ok_inv in H5 as (_ & -> & ->).
  apply bind_ok_inv in H as (? & s6 & t6 & ? & H6 & H & ->).
  apply ret_ok_inv in H6 as (_ & -> & ->).
  apply bind_ok_inv in H as (x & s7 & t7 & ? & H7 & H & ->).
  apply sample_ok_inv in H7 as ->.
  apply bind_ok_inv in H as (b & s8 & t8 & ? & H8 & H & ->).
  apply decode_ok_inv in H8 as [-> Hdec].
  apply ret_ok_inv in H as (-> & _ & ->).
  exists b. split; [done|]. split; [done|]. split; [done|]. eauto.
Qed.

(** The loop appends, in order, what it decoded: one batch per index. *)
Lemma for_each_loop_body_ok (r : request) pl ls bp ma (xs : list Z) st st'
    (s s' : state) t :
  for_each xs (loop_body E cfg r pl ls bp ma) st s = (Ok st', s', t) ->
  video_clips st' = video_clips st ++ decoded t
  /\ length (decoded t) = length xs
  /\ saved t = []
  /\ Forall (fun b => exists x g g',
               vae_decode E x (num_frames pl) g = Ok (b, g'))
            (decoded t).
Proof.
  revert st s t. induction xs as [|loop_i xs IH]; intros st s t H; cbn in H.
  - apply ret_ok_inv in H as (-> & _ & ->). by rewrite app_nil_r.
  - apply bind_ok_inv in H as (st1 & s1 & t1 & t2 & H1 & H & ->).
    apply loop_body_ok in H1 as (b & Hclips & Hdec & Hsaved & Hb).
    apply IH in H as (Hclips' & Hlen & Hsaved' & Hall).
    unfold decoded, saved in *. rewrite !omap_app, Hdec, Hsaved, Hsaved'. cbn.
    split; [by rewrite Hclips', Hclips, <- app_assoc|].
    split; [by rewrite Hlen|]. split; [done|by constructor].
Qed.

Lemma prepare_ok (r : request) p (s s' : state) t :
  prepare E cfg r s = (Ok p, s', t) ->
  t = []
  /\ compute_generation_parameters E cfg (req_mode r) (req_resolution r)
       (req_aspect_ratio r) (req_length r) = Ok (the_plan p).
Proof.
  unfold prepare. intros H.
  apply bind_ok_inv in H as (? & s1 & t1 & ? & H1 & H & ->).
  apply ret_ok_inv in H1 as (_ & -> & ->).
  apply bind_ok_inv in H as (pl & s2 & t2 & ? & H2 & H & ->).
  apply lift_ok_inv in H2 as (Hpl & -> & ->).
  apply bind_ok_inv in H as (ls & s3 & t3 & ? & H3 & H & ->).
  apply lift_ok_inv in H3 as (_ & -> & ->).
  apply bind_ok_inv in H as (ms & s4 & t4 & ? & H4 & H & ->).
  apply lift_ok_inv in H4 as (_ & -> & ->).
  apply bind_ok_inv in H as (rs & s5 & t5 & ? & H5 & H & ->).
  apply lift_ok_inv in H5 as (_ & -> & ->).
  apply bind_ok_inv in H as ([[bp rs'] ms'] & s6 & t6 & ? & H6 & H & ->).
  apply lift_ok_inv in H6 as (_ & -> & ->).
  apply bind_ok_inv in H as (refs & s7 & t7 & ? & H7 & H & ->).
  apply with_rng_ok_inv in H7 as [-> _].
  apply ret_ok_inv in H as (-> & _ & ->). by split.
Qed.

Lemma generate_ok (r : request) p clips (s s' : state) t :
  generate E cfg r p s = (Ok clips, s', t) ->
  clips = decoded t
  /\ length clips = Z.to_nat (num_loop (the_plan p))
  /\ saved t = []
  /\ Forall (fun b => exists x g g',
               vae_decode E x (num_frames (the_plan p)) g = Ok (b, g'))
            clips.
Proof.
  unfold generate. intros H.
  apply bind_ok_inv in H as (st & s1 & t1 & ? & H1 & H & ->).
  apply ret_ok_inv in H as (-> & _ & ->). rewrite app_nil_r.
  apply for_each_loop_body_ok in H1 as (Hclips & Hlen & Hsaved & Hall).
  cbn in Hclips. rewrite Hclips. repeat split; [|done..].
  rewrite Hlen. unfold range. rewrite length_seqZ. f_equal. lia.
Qed.

(** A call that returns: the plan it followed, the batches it decoded, one
    per loop and in loop order, and the one video it saved, stitched from
    them. *)
Lemma run_inference_ok (r : request) saved_path (s : state) :
  outcome (run_inference E cfg r s) = Ok saved_path ->
  exists pl video,
    compute_generation_parameters E cfg (req_mode r) (req_resolution r)
      (req_aspect_ratio r) (req_length r) = Ok pl
    /\ 1 <= num_loop pl
    /\ Z.of_nat (length (decoded (trace (run_inference E cfg r s))))
       = num_loop pl
    /\ Forall (fun b => exists x g g',
                 vae_decode E x (num_frames pl) g = Ok (b, g'))
              (decoded (trace (run_inference E cfg r s)))
    /\ stitch E cfg (num_loop pl) (decoded (trace (run_inference E cfg r s)))
       = Ok video
    /\ saved (trace (run_inference E cfg r s)) = [video].
Proof.
  rewrite run_inference_eq.
  destruct (prepare _ _ _ s) as [[[p|e] s1] t1] eqn:Hp; [|done].
  apply prepare_ok in Hp as [-> Hpl].
  destruct (generate _ _ _ p s1) as [[[clips|e] s2] t2] eqn:Hg; [|done].
  apply generate_ok in Hg as (-> & Hlen & Hsaved & Hall).
  rewrite save_output_eq.
  destruct (stitch _ _ _ _) as [video|e] eqn:Hstitch; [|done]. cbn.
  destruct (save_sample _ _ _ _) as [path|e]; [|done]. cbn. intros _.
  unfold decoded, saved in *. rewrite !omap_app, Hsaved. cbn.
  rewrite app_nil_r.
  pose proof (stitch_ok_nonempty _ _ _ Hstitch) as Hne.
  exists (the_plan p), video. repeat split; try done.
  - destruct (omap _ t2); [done|]. cbn in Hlen. lia.
  - destruct (omap _ t2); [done|]. cbn in Hlen. cbn. lia.
Qed.




(** C6.  In a call that returns, the video handed to [save_sample] is the
    first decoded segment as it is, followed by every later segment without
    its first [dframe_to_frame(condition_frame_length)] frames, in the order
    of the loop; there is one segment per loop index. *)
Theorem stitcher_trims_and_concatenates
    (r : request) (s : state) (saved_path : string) :
  0 <= dframe_to_frame E (cfg_condition_frame_length cfg) ->
  outcome (run_inference E cfg r s) = Ok saved_path ->
  exists pl first_clip later_clips,
    compute_generation_parameters E cfg (req_mode r) (req_resolution r)
      (req_aspect_ratio r) (req_length r) = Ok pl
    /\ result_map py_first (decoded (trace (run_inference E cfg r s)))
       = Ok (first_clip :: later_clips)
    /\ Z.of_nat (length (first_clip :: later_clips)) = num_loop pl
    /\ saved (trace (run_inference E cfg r s))
       = [first_clip
          ++ concat (drop (Z.to_nat (dframe_to_frame E
                                       (cfg_condition_frame_length cfg)))
                     <$> later_clips)].
Proof.
  intros Hk Hok.
  destruct (run_inference_ok r saved_path s Hok)
    as (pl & video & Hpl & _ & Hlen & _ & Hstitch & Hsaved).
  rewrite <- Hlen in Hstitch.
  apply stitch_spec in Hstitch as (c0 & rest & Hfirst & ->).
  exists pl, c0, rest. repeat split; [done..| |].
  - by rewrite (result_map_length _ _ _ Hfirst).
  - rewrite Hsaved. do 3 f_equal.
    apply list_fmap_ext. intros _ c _. by apply slice_from_nonneg.
Qed.



(** * Further properties of the handlers *)

(** ** The scheduler's keyword arguments *)



(** ** More on the planner *)

(** The planner's branch for more than 16 seconds, for any mode other than
    Text2Image. *)
Lemma long_video_plan
    (mode resolution aspect_ratio length : string) (size : Z * Z)
    (seconds : Z) :
  mode <> "Text2Image" ->
  get_image_size E resolution aspect_ratio = Ok size ->
  PyStr.int (PyStr.rstrip "s" length) = Ok seconds ->
  16 < seconds ->
  compute_generation_parameters E cfg mode resolution aspect_ratio length
  = match int_truediv (cfg_fps cfg * seconds - cfg_num_frames cfg)
            (cfg_num_frames cfg
             - dframe_to_frame E (cfg_condition_frame_length cfg)) with
    | Ok q => Ok (Plan size (cfg_num_frames cfg) (q + 1) (cfg_fps cfg))
    | Raise e => Raise e
    end.
Proof.
  intros Hmode Hsize Hint Hlong. unfold compute_generation_parameters.
  rewrite Hsize. cbn. rewrite decide_False by done. rewrite Hint. cbn.
  by rewrite decide_False by lia.
Qed.

(** When the planner raises, so does the call, right after seeding. *)
Lemma run_inference_plan_raises (r : request) (s : state) (e : exn) :
  compute_generation_parameters E cfg (req_mode r) (req_resolution r)
    (req_aspect_ratio r) (req_length r) = Raise e ->
  run_inference E cfg r s
  = (Raise e,
     State (torch_manual_seed E (req_seed r)) (scheduler s) (clock s), []).
Proof.
  intros H. rewrite run_inference_eq. unfold prepare.
  rewrite bind_eq. cbn. by rewrite bind_eq, lift_eq, H.
Qed.

(** X4.  A request of more than 16 seconds under a configuration whose
    segment is exactly as long as the conditioning overlap ends with
    [ZeroDivisionError], right after seeding: nothing is drawn, sampled or
    saved. *)
Theorem equal_overlap_divides_by_zero
    (r : request) (s : state) (size : Z * Z) (seconds : Z) :
  req_mode r <> "Text2Image" ->
  get_image_size E (req_resolution r) (req_aspect_ratio r) = Ok size ->
  PyStr.int (PyStr.rstrip "s" (req_length r)) = Ok seconds ->
  16 < seconds ->
  cfg_num_frames cfg = dframe_to_frame E (cfg_condition_frame_length cfg) ->
  run_inference E cfg r s
  = (Raise ZeroDivisionError,
     State (torch_manual_seed E (req_seed r)) (scheduler s) (clock s), []).
Proof.
  intros Hmode Hsize Hint Hlong Heq. apply run_inference_plan_raises.
  rewrite (long_video_plan _ _ _ _ size seconds) by done.
  unfold int_truediv. by rewrite decide_True by lia.
Qed.




(** X7.  A plan without loops cannot produce a video: when the preparation
    returns with [num_loop <= 0], the loop body never runs and [torch.cat]
    refuses the empty list of clips; nothing is drawn, sampled or saved. *)
Theorem no_loop_no_video (r : request) (s s1 : state) p t1 :
  prepare E cfg r s = (Ok p, s1, t1) ->
  num_loop (the_plan p) <= 0 ->
  run_inference E cfg r s
  = (Raise (RuntimeError "torch.cat(): expected a non-empty list of Tensors"),
     s1, []).
Proof.
  intros Hp Hn. rewrite run_inference_eq, Hp.
  apply prepare_ok in Hp as [-> _].
  unfold generate, range. rewrite seqZ_nil by lia. unfold_monad.
  rewrite save_output_eq. unfold stitch, range. cbn.
  by rewrite seqZ_nil by lia.
Qed.


(** ** The trace of a call *)

Lemma kc_bind {A B} (m : M A) (f : A -> M B) :
  keeps_clock m -> (forall a, keeps_clock (f a)) -> keeps_clock (m ≫= f).
Proof.
  intros Hm Hf s. rewrite bind_eq. specialize (Hm s).
  destruct (m s) as [[[a|e] s1] t1]; cbn in *; [|done].
  by rewrite <- Hm, <- (Hf a s1).
Qed.

Lemma kc_for_each {A S} (xs : list A) (body : A -> S -> M S) :
  (forall x acc, keeps_clock (body x acc)) ->
  forall acc, keeps_clock (for_each xs body acc).
Proof.
  intros Hbody. induction xs as [|x xs IH]; intros acc; cbn; [done|].
  apply kc_bind; [apply Hbody|apply IH].
Qed.

Lemma kc_lift {A} (x : result A) : keeps_clock (lift x : M A).
Proof. done. Qed.

Lemma kc_with_rng {A} (f : Rng -> result (A * Rng)) :
  keeps_clock (with_rng f : M A).
Proof. intros s. unfold with_rng. by destruct (f (rng s)) as [[a g]|e]. Qed.

Lemma kc_loop_body (r : request) pl ls bp ma (loop_i : Z) st :
  keeps_clock (loop_body E cfg r pl ls bp ma loop_i st).
Proof.
  unfold loop_body.
  apply kc_bind; [apply kc_lift|]. intros bpl.
  apply kc_bind.
  { destruct (decide (0 < loop_i)); [|done].
    apply kc_bind; [apply kc_lift|]. intros prev. apply kc_with_rng. }
  intros [refs ms].
  apply kc_bind.
  { intros s. unfold randn. by destruct (torch_randn _ _ _). }
  intros z. apply kc_bind; [apply kc_lift|]. intros [z' masks].
  apply kc_bind; [apply kc_lift|]. intros kwargs.
  apply kc_bind; [done|]. intros ?.
  apply kc_bind.
  { intros s. unfold sample.
    by destruct (scheduler_sample _ _ _ _ _ _ _) as [[x g]|e]. }
  intros samples. apply kc_bind; [|done].
  unfold decode. apply kc_bind; [apply kc_with_rng|]. intros b.
  by apply kc_bind.
Qed.

Lemma kc_prepare (r : request) : keeps_clock (prepare E cfg r).
Proof.
  unfold prepare.
  apply kc_bind; [done|]. intros ?.
  apply kc_bind; [apply kc_lift|]. intros pl.
  apply kc_bind; [apply kc_lift|]. intros ls.
  apply kc_bind; [apply kc_lift|]. intros ms.
  apply kc_bind; [apply kc_lift|]. intros rs.
  apply kc_bind; [apply kc_lift|]. intros [[bp rs'] ms'].
  apply kc_bind; [apply kc_with_rng|]. done.
Qed.

Lemma kc_generate (r : request) p : keeps_clock (generate E cfg r p).
Proof.
  unfold generate. apply kc_bind; [|done].
  apply kc_for_each. intros. apply kc_loop_body.
Qed.

Lemma loop_body_trace (r : request) pl ls bp ma (loop_i : Z) st st'
    (s s' : state) t :
  loop_body E cfg r pl ls bp ma loop_i st s = (Ok st', s', t) ->
  exists kwargs x,
    scheduler_kwargs cfg r = Ok kwargs /\ t = iteration_events kwargs x.
Proof.
  unfold loop_body. intros H.
  apply bind_ok_inv in H as (bpl & s1 & t1 & ? & H1 & H & ->).
  apply lift_ok_inv in H1 as (_ & -> & ->).
  apply bind_ok_inv in H as ([refs ms] & s2 & t2 & ? & H2 & H & ->).
  assert (t2 = []) as ->.
  { destruct (decide (0 < loop_i)).
    - apply bind_ok_inv in H2 as (prev & s1 & t1 & ? & H1 & H2 & ->).
      apply lift_ok_inv in H1 as (_ & -> & ->).
      by apply with_rng_ok_inv in H2 as [-> _].
    - by apply ret_ok_inv in H2 as (_ & _ & ->). }
  apply bind_ok_inv in H as (z & s3 & t3 & ? & H3 & H & ->).
  apply randn_ok_inv in H3 as ->.
  apply bind_ok_inv in H as ([z' masks] & s4 & t4 & ? & H4 & H & ->).
  apply lift_ok_inv in H4 as (_ & -> & ->).
  apply bind_ok_inv in H as (kwargs & s5 & t5 & ? & H5 & H & ->).
  apply lift_ok_inv in H5 as (Hkw & -> & ->).
  apply bind_ok_inv in H as (? & s6 & t6 & ? & H6 & H & ->).
  apply ret_ok_inv in H6 as (_ & -> & ->).
  apply bind_ok_inv in H as (x & s7 & t7 & ? & H7 & H & ->).
  apply sample_ok_inv in H7 as ->.
  apply bind_ok_inv in H as (b & s8 & t8 & ? & H8 & H & ->).
  apply decode_ok_inv in H8 as [-> _].
  apply ret_ok_inv in H as (_ & _ & ->).
  by exists kwargs, (z, z', b).
Qed.

Lemma for_each_loop_body_trace (r : request) pl ls bp ma (xs : list Z)
    st st' (s s' : state) t kwargs :
  scheduler_kwargs cfg r = Ok kwargs ->
  for_each xs (loop_body E cfg r pl ls bp ma) st s = (Ok st', s', t) ->
  exists its,
    length its = length xs /\ t = concat (iteration_events kwargs <$> its).
Proof.
  intros Hkw. revert st s t.
  induction xs as [|loop_i xs IH]; intros st s t H; cbn in H.
  - apply ret_ok_inv in H as (_ & _ & ->). by exists [].
  - apply bind_ok_inv in H as (st1 & s1 & t1 & t2 & H1 & H & ->).
    apply loop_body_trace in H1 as (kw & x & Hkw' & ->).
    assert (kw = kwargs) as -> by congruence.
    apply IH in H as (its & Hlen & ->).
    exists (x :: its). split; [by cbn; f_equal|done].
Qed.

(** X8.  A call that returns has gone through the loop in order: for each
    of its [num_loop] iterations one draw, one scheduler call under the
    keyword arguments of the request and one decoding, then one
    [save_sample] on the path [output_<timestamp>] under the output
    directory with the frame rate of the plan, then the cache clear. *)
Theorem returning_call_trace (r : request) (s : state) (saved_path : string) :
  outcome (run_inference E cfg r s) = Ok saved_path ->
  exists pl kwargs its video,
    compute_generation_parameters E cfg (req_mode r) (req_resolution r)
      (req_aspect_ratio r) (req_length r) = Ok pl
    /\ scheduler_kwargs cfg r = Ok kwargs
    /\ Z.of_nat (length its) = num_loop pl
    /\ trace (run_inference E cfg r s)
       = concat (iteration_events kwargs <$> its)
         ++ [EvSave video
               (path_join (args_output cfg) ("output_" +:+ clock s))
               (fps pl);
             EvEmptyCache]
    /\ save_sample E video
         (path_join (args_output cfg) ("output_" +:+ clock s)) (fps pl)
       = Ok saved_path.
Proof.
  intros Hok.
  destruct (run_inference_ok r saved_path s Hok)
    as (pl & _ & Hpl & Hpos & _).
  revert Hok. rewrite run_inference_eq.
  pose proof (kc_prepare r s) as Hc1.
  destruct (prepare _ _ _ s) as [[[p|e] s1] t1] eqn:Hp; [|done].
  apply prepare_ok in Hp as [-> Hpl'].
  assert (the_plan p = pl) as Hplan by congruence.
  pose proof (kc_generate r p s1) as Hc2.
  destruct (generate _ _ _ p s1) as [[[clips|e] s2] t2] eqn:Hg; [|done].
  cbn in Hc1, Hc2.
  unfold generate in Hg.
  apply bind_ok_inv in Hg as (st & s2' & t2' & ? & Hloop & Hg & ->).
  apply ret_ok_inv in Hg as (-> & -> & ->).
  destruct (scheduler_kwargs cfg r) as [kwargs|e] eqn:Hkw.
  2:{ exfalso. rewrite Hplan in Hloop.
      unfold range in Hloop. rewrite seqZ_cons in Hloop by lia.
      cbn in Hloop.
      apply bind_ok_inv in Hloop as (? & ? & ? & ? & Hbody & _).
      apply loop_body_trace in Hbody as (? & ? & ? & _). congruence. }
  apply (for_each_loop_body_trace _ _ _ _ _ _ _ _ _ _ _ kwargs Hkw) in Hloop
    as (its & Hlen & ->).
  rewrite save_output_eq.
  destruct (stitch _ _ _ _) as [video|e]; [|done]. cbn.
  destruct (save_sample _ _ _ _) as [path|e] eqn:Hsave; [|done]. cbn.
  intros [= ->].
  exists pl, kwargs, its, video. rewrite Hc2, Hc1, Hplan in *.
  repeat split; try done.
  - rewrite Hlen. unfold range. rewrite length_seqZ. lia.
  - by rewrite app_nil_r.
Qed.

(** ** What is saved *)

Lemma prepare_trace (r : request) (s : state) : trace (prepare E cfg r s) = [].
Proof.
  destruct (sh_prepare (fun _ => False) r (fun _ => True) s I) as [H _].
  by destruct H.
Qed.

Lemma generate_saves_nothing (r : request) p (s : state) :
  saved (trace (generate E cfg r p s)) = [].
Proof.
  set (phi := fun ev : event =>
                match ev with EvSave _ _ _ => False | _ => True end).
  assert (sched_hoare (fun _ => True) phi (generate E cfg r p)
            (fun clips k => clips = [] \/ scheduler_kwargs cfg r = Ok k)) as Hg
    by (by apply sh_generate).
  destruct (Hg s I) as [H _]. clear Hg.
  induction H as [|ev t Hev _ IH]; [done|].
  unfold saved in *. by destruct ev.
Qed.

(** X9.  Whatever happens in a call, a video reaches [save_sample] only
    complete: it is the stitching of one decoded batch per planned loop, and
    it is the only one.  A call that fails on the way saves no partial
    video. *)
Theorem only_complete_videos_saved
    (r : request) (s : state) (video : list Frame) :
  video ∈ saved (trace (run_inference E cfg r s)) ->
  exists pl,
    compute_generation_parameters E cfg (req_mode r) (req_resolution r)
      (req_aspect_ratio r) (req_length r) = Ok pl
    /\ Z.of_nat (length (decoded (trace (run_inference E cfg r s))))
       = num_loop pl
    /\ stitch E cfg (num_loop pl) (decoded (trace (run_inference E cfg r s)))
       = Ok video
    /\ saved (trace (run_inference E cfg r s)) = [video].
Proof.
  rewrite run_inference_eq.
  pose proof (prepare_trace r s) as Ht1.
  destruct (prepare _ _ _ s) as [[[p|e] s1] t1] eqn:Hp; cbn in Ht1; subst t1;
    [|by intros ?%elem_of_nil].
  apply prepare_ok in Hp as [_ Hpl].
  pose proof (generate_saves_nothing r p s1) as Ht2.
  destruct (generate _ _ _ p s1) as [[[clips|e] s2] t2] eqn:Hg; cbn in Ht2;
    [|cbn; rewrite Ht2; by intros ?%elem_of_nil].
  apply generate_ok in Hg as (-> & Hlen & _ & _).
  rewrite save_output_eq.
  destruct (stitch _ _ _ _) as [v|e] eqn:Hstitch; cbn.
  2:{ rewrite app_nil_r, Ht2. by intros ?%elem_of_nil. }
  pose proof (stitch_ok_nonempty _ _ _ Hstitch) as Hne.
  assert (Z.of_nat (length (decoded t2)) = num_loop (the_plan p)) as Hlen'.
  { destruct (decoded t2); [done|]. cbn in Hlen. cbn. lia. }
  destruct (save_sample _ _ _ _) as [path|e]; cbn;
    unfold saved, decoded in *; rewrite !omap_app, Ht2; cbn;
    rewrite app_nil_r;
    intros ->%list_elem_of_singleton; by exists (the_plan p).
Qed.




(** ** Single-segment calls *)

Lemma single_loop_call (r : request) (s : state) (saved_path : string) pl :
  compute_generation_parameters E cfg (req_mode r) (req_resolution r)
    (req_aspect_ratio r) (req_length r) = Ok pl ->
  num_loop pl = 1 ->
  outcome (run_inference E cfg r s) = Ok saved_path ->
  exists b clip,
    decoded (trace (run_inference E cfg r s)) = [b]
    /\ (exists x g g', vae_decode E x (num_frames pl) g = Ok (b, g'))
    /\ py_first b = Ok clip
    /\ saved (trace (run_inference E cfg r s)) = [clip].
Proof.
  intros Hpl Hone Hok.
  destruct (run_inference_ok r saved_path s Hok)
    as (pl' & video & Hpl' & _ & Hlen & Hall & Hstitch & Hsaved).
  assert (pl' = pl) as -> by congruence. rewrite Hone in *.
  destruct (decoded _) as [|b [|??]]; cbn in Hlen; try lia.
  apply Forall_cons in Hall as [Hb _].
  unfold stitch in Hstitch. cbn in Hstitch.
  destruct (py_first b) as [clip|e] eqn:Hclip; [|done]. cbn in Hstitch.
  injection Hstitch as <-. rewrite app_nil_r in Hsaved.
  by exists b, clip.
Qed.

Lemma image_plan (resolution aspect_ratio length : string) pl :
  compute_generation_parameters E cfg "Text2Image" resolution aspect_ratio
    length = Ok pl ->
  num_frames pl = 1 /\ num_loop pl = 1 /\ fps pl = IMG_FPS E.
Proof.
  unfold compute_generation_parameters.
  destruct (get_image_size _ _ _) as [size|e]; [|done]. cbn.
  by intros [= <-].
Qed.

Lemma short_video_plan
    (mode resolution aspect_ratio length : string) (seconds : Z) pl :
  mode <> "Text2Image" ->
  PyStr.int (PyStr.rstrip "s" length) = Ok seconds ->
  seconds <= 16 ->
  compute_generation_parameters E cfg mode resolution aspect_ratio length
  = Ok pl ->
  num_loop pl = 1 /\ get_num_frames E length = Ok (num_frames pl).
Proof.
  intros Hmode Hint Hshort. unfold compute_generation_parameters.
  destruct (get_image_size _ _ _) as [size|e]; [|done]. cbn.
  rewrite decide_False by done. rewrite Hint. cbn.
  rewrite decide_True by done.
  destruct (get_num_frames E length) as [n|e]; [|done]. cbn.
  by intros [= <-].
Qed.

(** X11.  An image request that returns has decoded exactly one batch,
    asked for one frame, and saved the first clip of that batch as it is:
    nothing is trimmed and no second segment is generated. *)
Theorem image_is_one_untrimmed_segment
    (r : request) (s : state) (saved_path : string) :
  outcome (run_image_inference E cfg r s) = Ok saved_path ->
  exists b clip,
    decoded (trace (run_image_inference E cfg r s)) = [b]
    /\ (exists x g g', vae_decode E x 1 g = Ok (b, g'))
    /\ py_first b = Ok clip
    /\ saved (trace (run_image_inference E cfg r s)) = [clip].
Proof.
  unfold run_image_inference. intros Hok.
  destruct (run_inference_ok _ saved_path s Hok) as (pl & _ & Hpl & _).
  destruct (image_plan _ _ _ _ Hpl) as (Hframes & Hone & _).
  destruct (single_loop_call _ s saved_path pl Hpl Hone Hok)
    as (b & clip & H). rewrite Hframes in H. by exists b, clip.
Qed.

(** X12.  Every length the interface offers is planned as a single loop: a
    video request with one of them that returns a path has decoded exactly
    one batch, asked for the frames of its length tag, and saved the first
    clip of that batch as it is; the continuation of a previous segment is
    out of reach of the interface. *)
Theorem offered_lengths_are_one_segment
    (r : request) (s : state) (saved_path : string) :
  req_length r ∈ length_choices ->
  outcome (run_video_inference E cfg r s) = Ok (Some saved_path) ->
  exists n b clip,
    get_num_frames E (req_length r) = Ok n
    /\ decoded (trace (run_video_inference E cfg r s)) = [b]
    /\ (exists x g g', vae_decode E x n g = Ok (b, g'))
    /\ py_first b = Ok clip
    /\ saved (trace (run_video_inference E cfg r s)) = [clip].
Proof.
  intros Hlen.
  assert (exists seconds,
            PyStr.int (PyStr.rstrip "s" (req_length r)) = Ok seconds
            /\ seconds <= 16) as (seconds & Hint & Hshort).
  { unfold length_choices in Hlen.
    rewrite !elem_of_cons, elem_of_nil in Hlen.
    destruct Hlen as [->|[->|[->|[->|[]]]]]; eexists;
      (split; [vm_compute; reflexivity|vm_compute; discriminate]). }
  destruct (infeasible (req_resolution r) (req_length r)) eqn:Hinf.
  { by rewrite (run_video_inference_refused r s Hinf). }
  rewrite (run_video_inference_accepted r s Hinf).
  destruct (run_inference _ _ _ s) as [[[path|e] s'] t] eqn:Hrun; [|done].
  cbn. intros [= ->].
  assert (outcome (run_inference E cfg (with_mode "Text2Video" r) s)
          = Ok saved_path) as Hok by (by rewrite Hrun).
  destruct (run_inference_ok _ saved_path s Hok) as (pl & _ & Hpl & _).
  pose proof Hpl as Hpl0. cbn in Hpl0.
  destruct (short_video_plan "Text2Video" _ _ _ seconds pl ltac:(done)
              Hint Hshort Hpl0) as [Hone Hn].
  destruct (single_loop_call _ s saved_path pl Hpl Hone Hok)
    as (b & clip & H). rewrite Hrun in H. cbn in H.
  by exists (num_frames pl), b, clip.
Qed.


(** ** Inputs without effect *)

(** X13.  The image handler does not look at the length, at the motion
    strength and its switch, or at the reference image: replacing them (and
    the mode field, which the handler sets itself) changes neither the
    outcome, nor the final state, nor the trace. *)
Theorem image_ignores_video_inputs
    (r : request) (s : state) (mode length : string) (motion_strength : Z)
    (use_motion_strength : bool) (reference_image : option Image) :
  run_image_inference E cfg r s
  = run_image_inference E cfg
      (Request mode (req_prompt_text r) (req_resolution r)
         (req_aspect_ratio r) length motion_strength (req_aesthetic_score r)
         use_motion_strength (req_use_aesthetic_score r)
         (req_use_timestep_transform r) reference_image (req_seed r)
         (req_sampling_steps r) (req_cfg_scale r))
      s.
Proof.
  unfold run_image_inference, run_inference, prepare.
  unfold compute_generation_parameters, prepare_mask_strategy, prepare_refs.
  cbn. rewrite !andb_false_r. reflexivity.
Qed.


(** X14.  A score whose switch is off has no effect, in either mode: the
    motion strength of a request with [use_motion_strength] off and the
    aesthetic score of a request with [use_aesthetic_score] off can be
    replaced by any value without changing the outcome, the final state or
    the trace of [run_inference]. *)
Theorem disabled_scores_are_ignored
    (r : request) (s : state) (motion_strength aesthetic_score : Z) :
  run_inference E cfg r s
  = run_inference E cfg
      (Request (req_mode r) (req_prompt_text r) (req_resolution r)
         (req_aspect_ratio r) (req_length r)
         (if req_use_motion_strength r then req_motion_strength r
          else motion_strength)
         (if req_use_aesthetic_score r then req_aesthetic_score r
          else aesthetic_score)
         (req_use_motion_strength r) (req_use_aesthetic_score r)
         (req_use_timestep_transform r) (req_reference_image r) (req_seed r)
         (req_sampling_steps r) (req_cfg_scale r))
      s.
Proof.
  destruct r as [m p res ar len ms aes ums uaes utt ref seed steps scale].
  unfold run_inference, prepare. cbn.
  by destruct ums, uaes.
Qed.


End Properties.

(** * Properties of [install_dependencies] *)

Section InstallProperties.

Import Install.

Context (executable : string).
Context (pip : shell_command -> gset string -> gset string).

Lemma unless_available_present name c (st : gset string) :
  name ∈ st -> unless_available pip name c st = (tt, st, []).
Proof.
  intros H. unfold unless_available, is_package_available.
  by rewrite bool_decide_eq_true_2.
Qed.

Lemma unless_available_absent name c (st : gset string) :
  name ∉ st -> unless_available pip name c st = (tt, pip c st, [c]).
Proof.
  intros H. unfold unless_available, is_package_available.
  by rewrite bool_decide_eq_false_2.
Qed.

(** X1.  When every package the call looks at imports already, it runs no
    command and changes nothing. *)
Theorem install_dependencies_nothing_to_do
    (enable_optimization : bool) (st : gset string) :
  Forall (fun name => name ∈ st)
    ("flash_attn"
     :: (if enable_optimization then ["apex"; "ninja"; "xformers"] else [])) ->
  install_dependencies executable pip enable_optimization st = (tt, st, []).
Proof.
  intros [Hflash Hrest]%Forall_cons. unfold install_dependencies, seq.
  rewrite unless_available_present by done.
  destruct enable_optimization; [|done].
  apply Forall_cons in Hrest as [Hapex [Hninja [Hxf _]%Forall_cons]%Forall_cons].
  by rewrite !unless_available_present.
Qed.

(** One step under a [pip] that installs what it is asked for and removes
    nothing: the package imports afterwards and so does everything that
    imported before. *)
Lemma unless_available_installs name c (st : gset string) :
  (forall st0, name ∈ pip c st0) ->
  (forall st0, st0 ⊆ pip c st0) ->
  name ∈ (unless_available pip name c st).1.2
  /\ st ⊆ (unless_available pip name c st).1.2.
Proof.
  intros Hin Hmono. destruct (decide (name ∈ st)) as [H|H].
  - by rewrite unless_available_present.
  - rewrite unless_available_absent by done. cbn. auto.
Qed.

(** X2.  Under a [pip] that installs what it is asked for and removes
    nothing, a call leaves every package it looks at importable, keeps what
    imported before, and a second call runs no command. *)
Theorem install_dependencies_settles
    (enable_optimization : bool) (st : gset string) :
  let required :=
    "flash_attn"
    :: (if enable_optimization then ["apex"; "ninja"; "xformers"] else []) in
  let after := (install_dependencies executable pip enable_optimization st).1.2 in
  (forall st0, "flash_attn" ∈ pip (flash_attn_command executable) st0) ->
  (forall st0, "apex" ∈ pip (apex_command executable) st0) ->
  (forall st0, "ninja" ∈ pip (ninja_command executable) st0) ->
  (forall st0, "xformers" ∈ pip (xformers_command executable) st0) ->
  (forall c st0, st0 ⊆ pip c st0) ->
  Forall (fun name => name ∈ after) required
  /\ st ⊆ after
  /\ install_dependencies executable pip enable_optimization after
     = (tt, after, []).
Proof.
  intros required after Hflash Hapex Hninja Hxf Hmono.
  subst required after. unfold install_dependencies, seq.
  destruct (unless_available_installs "flash_attn"
              (flash_attn_command executable) st (Hflash) (Hmono _))
    as [H1 H1'].
  destruct (unless_available pip "flash_attn" _ st) as [[[] st1] t1].
  cbn in H1, H1'. destruct enable_optimization; cbn -[unless_available].
  - destruct (unless_available_installs "apex"
                (apex_command executable) st1 Hapex (Hmono _)) as [H2 H2'].
    destruct (unless_available pip "apex" _ st1) as [[[] st2] t2].
    cbn in H2, H2'.
    destruct (unless_available_installs "ninja"
                (ninja_command executable) st2 Hninja (Hmono _)) as [H3 H3'].
    destruct (unless_available pip "ninja" _ st2) as [[[] st3] t3].
    cbn in H3, H3'.
    destruct (unless_available_installs "xformers"
                (xformers_command executable) st3 Hxf (Hmono _)) as [H4 H4'].
    destruct (unless_available pip "xformers" _ st3) as [[[] st4] t4].
    cbn in H4, H4'. cbn -[unless_available].
    assert ("flash_attn" ∈ st4) by (by apply H4', H3', H2').
    assert ("apex" ∈ st4) by (by apply H4', H3').
    assert ("ninja" ∈ st4) by (by apply H4').
    split; [by repeat constructor|].
    split; [by do 3 (etrans; [|done])|].
    by rewrite !unless_available_present.
  - split; [by repeat constructor|]. split; [done|].
    by rewrite unless_available_present.
Qed.

End InstallProperties.


(** * The theorems at work on the small instance *)

Section Instances.

Import Demo.

Ltac by_compute := vm_compute; first [reflexivity | discriminate].

Abbreviation run mode resolution length :=
  (run_inference env cfg (req mode resolution length) s0).


(** C8 at an image and at a sixteen-second video. *)
Lemma single_loop_plans_example :
  compute_generation_parameters env cfg "Text2Image" "720p" "1:1" "16s"
  = Ok {| image_size := (144, 256); num_frames := 1; num_loop := 1;
          fps := 120 |}
  /\ compute_generation_parameters env cfg "Text2Video" "720p" "1:1" "16s"
     = Ok {| image_size := (144, 256); num_frames := 408; num_loop := 1;
             fps := 24 |}.
Proof.
  destruct (single_loop_plans env cfg "720p" "1:1" "16s" (144, 256) eq_refl)
    as [Himage Hvideo].
  split; [exact Himage|].
  apply (Hvideo 16 408); [reflexivity|lia|reflexivity].
Defined.

(** C5 at 720p and 8s. *)
Lemma infeasible_request_refused_example :
  outcome (run_video_inference env cfg (req "Text2Video" "720p" "8s") s0)
  = Ok None
  /\ final (run_video_inference env cfg (req "Text2Video" "720p" "8s") s0) = s0.
Proof.
  destruct (infeasible_request_refused env cfg (req "Text2Video" "720p" "8s") s0)
    as (Hout & Hfinal & _).
  - left. split; [reflexivity|]. left. reflexivity.
  - split; [exact Hout|exact Hfinal].
Defined.

(** C10 at 480p and 16s. *)
Lemma none_exactly_when_refused_example :
  outcome (run_video_inference env cfg (req "Text2Video" "480p" "16s") s0)
  = Ok None.
Proof.
  apply (proj1 (none_exactly_when_refused env cfg
                  (req "Text2Video" "480p" "16s") s0)).
  right. split; reflexivity.
Defined.



(** C3: the scheduler held the configured 30 steps before the call and
    holds the 50 steps of the request after it. *)
Lemma scheduler_keeps_request_steps :
  scheduler s0 = scheduler_defaults cfg
  /\ scheduler s0 !! "num_sampling_steps" = Some (VInt 30)
  /\ outcome (run "Text2Video" "240p" "2s")
     = Ok "./outputs/output_1718000000.5.mp4"
  /\ scheduler (final (run "Text2Video" "240p" "2s")) !! "num_sampling_steps"
     = Some (VInt 50).
Proof. repeat split; vm_compute; reflexivity. Qed.

(** C4: the scheduler raises in the first loop; the call ends with that
    exception and the cache has not been cleared. *)
Lemma failing_scheduler_leaves_cache :
  outcome (run_inference env_failing_scheduler cfg
             (req "Text2Video" "240p" "2s") s0)
  = Raise (CollaboratorError "scheduler.sample")
  /\ existsb is_empty_cache
       (trace (run_inference env_failing_scheduler cfg
                 (req "Text2Video" "240p" "2s") s0))
     = false.
Proof. split; vm_compute; reflexivity. Qed.




(** C6 at 32 seconds. *)
Lemma stitcher_trims_and_concatenates_example :
  exists first_clip later_clips,
    result_map py_first (decoded (trace (run "Text2Video" "240p" "32s")))
    = Ok (first_clip :: later_clips)
    /\ Z.of_nat (length (first_clip :: later_clips)) = 22
    /\ saved (trace (run "Text2Video" "240p" "32s"))
       = [first_clip ++ concat (drop 17 <$> later_clips)].
Proof.
  destruct (stitcher_trims_and_concatenates env cfg
              (req "Text2Video" "240p" "32s") s0
              "./outputs/output_1718000000.5.mp4")
    as (pl & c0 & rest & Hpl & Hfirst & Hlen & Hsaved).
  - by_compute.
  - vm_compute. reflexivity.
  - exists c0, rest. injection Hpl as <-. auto.
Defined.

(** C3 (as the code has it) at a two-second video. *)
Lemma scheduler_overrides_persist_example :
  scheduler_kwargs cfg (req "Text2Video" "240p" "2s")
  = Ok (scheduler (final (run "Text2Video" "240p" "2s"))).
Proof.
  apply (scheduler_overrides_persist env cfg (req "Text2Video" "240p" "2s") s0)
    with (saved_path := "./outputs/output_1718000000.5.mp4").
  vm_compute. reflexivity.
Defined.

(** ** The further properties at work *)

Lemma install_dependencies_nothing_to_do_example :
  Install.install_dependencies "python" pip true (list_to_set packages)
  = (tt, list_to_set packages, []).
Proof.
  apply install_dependencies_nothing_to_do.
  unfold packages. repeat constructor; set_solver.
Defined.

Lemma install_dependencies_settles_example :
  Install.install_dependencies "python" pip true
    (Install.install_dependencies "python" pip true ∅).1.2
  = (tt, (Install.install_dependencies "python" pip true ∅).1.2, []).
Proof.
  apply (install_dependencies_settles "python" pip true ∅);
    unfold pip, packages; intros; set_solver.
Defined.

Lemma equal_overlap_divides_by_zero_example :
  run_inference env cfg_equal_overlap (req "Text2Video" "240p" "32s") s0
  = (Raise ZeroDivisionError, State 1024 (scheduler s0) (clock s0), []).
Proof.
  apply (equal_overlap_divides_by_zero env cfg_equal_overlap
           (req "Text2Video" "240p" "32s") s0 (144, 256) 32);
    by_compute.
Defined.



Lemma no_loop_no_video_example :
  run_inference env cfg_long_overlap (req "Text2Video" "240p" "32s") s0
  = (Raise (RuntimeError "torch.cat(): expected a non-empty list of Tensors"),
     State 1024 (scheduler s0) (clock s0), []).
Proof.
  eapply (no_loop_no_video env cfg_long_overlap
            (req "Text2Video" "240p" "32s") s0).
  - vm_compute. reflexivity.
  - by_compute.
Defined.

Lemma returning_call_trace_example :
  exists its video,
    Z.of_nat (length its) = 22
    /\ trace (run "Text2Video" "240p" "32s")
       = concat (iteration_events
                   (scheduler (final (run "Text2Video" "240p" "32s")))
                 <$> its)
         ++ [EvSave video "./outputs/output_1718000000.5" 24; EvEmptyCache].
Proof.
  destruct (returning_call_trace env cfg (req "Text2Video" "240p" "32s") s0
              "./outputs/output_1718000000.5.mp4")
    as (pl & kwargs & its & video & Hpl & Hkw & Hlen & Htrace & _).
  - vm_compute. reflexivity.
  - injection Hpl as <-. injection Hkw as <-.
    exists its, video. split; [exact Hlen|exact Htrace].
Defined.

Lemma only_complete_videos_saved_example :
  saved (trace (run "Text2Video" "240p" "2s")) = [frames_of 1024 51].
Proof.
  destruct (only_complete_videos_saved env cfg (req "Text2Video" "240p" "2s")
              s0 (frames_of 1024 51)) as (pl & _ & _ & _ & Hsaved).
  - vm_compute. apply list_elem_of_here.
  - exact Hsaved.
Defined.



Lemma image_is_one_untrimmed_segment_example :
  exists b clip,
    decoded (trace (run_image_inference env cfg (req "" "240p" "2s") s0)) = [b]
    /\ py_first b = Ok clip
    /\ saved (trace (run_image_inference env cfg (req "" "240p" "2s") s0))
       = [clip].
Proof.
  destruct (image_is_one_untrimmed_segment env cfg (req "" "240p" "2s") s0
              "./outputs/output_1718000000.5.mp4")
    as (b & clip & Hdec & _ & Hfirst & Hsaved).
  - vm_compute. reflexivity.
  - exists b, clip. auto.
Defined.

Lemma offered_lengths_are_one_segment_example :
  exists b clip,
    decoded (trace (run_video_inference env cfg (req "" "240p" "4s") s0)) = [b]
    /\ py_first b = Ok clip
    /\ saved (trace (run_video_inference env cfg (req "" "240p" "4s") s0))
       = [clip].
Proof.
  destruct (offered_lengths_are_one_segment env cfg (req "" "240p" "4s") s0
              "./outputs/output_1718000000.5.mp4")
    as (n & b & clip & _ & Hdec & _ & Hfirst & Hsaved).
  - unfold length_choices. cbn. set_solver.
  - vm_compute. reflexivity.
  - exists b, clip. auto.
Defined.


End Instances.
